(** * openCANopen: the traffic dumper (src/dump.c)

    A shallow embedding of the decoders of [src/dump.c] and the properties
    the specification states about them.

    The file-scope variables of dump.c ([options_], [node_state_],
    [current_time_], [string_buffer_]) and the standard output stream are the
    fields of one state record that every decoder threads; a decoder is a
    computation in a state-and-trap monad, where a trap is what the C
    program does on a NULL dereference, on a read outside an object, or on
    [abort()].

    dump.c includes a dozen headers of the repository that are not part of
    the sources at hand (canopen/sdo.h, canopen/nmt.h, canopen/dump.h, ...).
    What dump.c uses of each is the interface of one type class below; the
    decoders are defined, and the theorems proved, for every implementation
    of these interfaces. *)

From Stdlib Require Import ZArith List String Ascii Bool Lia.
From Stdlib Require Import DecimalString HexadecimalString.
From stdpp Require Import base list.

Import ListNotations.
Local Open Scope Z_scope.

(** ** Machine integers *)

(** [size_t] of the LP64 targets the tool is built for. *)
Definition SIZE_BITS : Z := 64.

(** Conversion to [size_t]: reduction modulo 2^64. *)
Definition to_size_t (z : Z) : Z := z mod 2 ^ SIZE_BITS.

(** Conversion to [uint32_t] / [unsigned int]. *)
Definition to_u32 (z : Z) : Z := z mod 2 ^ 32.

(** Conversion to [unsigned long long]. *)
Definition to_u64 (z : Z) : Z := z mod 2 ^ 64.

(** Conversion to [int] (two's complement, 32 bits). *)
Definition to_int (z : Z) : Z := (z + 2 ^ 31) mod 2 ^ 32 - 2 ^ 31.

(** [MIN(a, b)] of dump.c, at type [size_t]:
    [#define MIN(a, b) ((a) < (b) ? (a) : (b))]. *)
Definition MIN (a b : Z) : Z := if a <? b then a else b.

(** ** The CAN frame (linux/can.h) *)

(** [struct can_frame]: a 32-bit identifier with its flag bits, the data
    length code (one byte) and the payload array of eight bytes. *)
Record can_frame : Type := mk_can_frame {
  can_id : Z;
  can_dlc : Z;
  data : list Z
}.

Definition CAN_MAX_DLC : Z := 8.
Definition CAN_RTR_FLAG : Z := 0x40000000.

Definition is_byte (b : Z) : Prop := 0 <= b < 256.

(** What the C type guarantees of a frame: [can_dlc] is a [__u8] and [data]
    is an array of exactly eight bytes.  Nothing in the type bounds
    [can_dlc] by 8. *)
Definition frame_ok (cf : can_frame) : Prop :=
  0 <= can_dlc cf < 256 /\ length (data cf) = 8%nat /\ Forall is_byte (data cf).

(** A pointer to bytes together with the object it points into: reading
    [size] bytes yields them, or nothing when the read leaves the object. *)
Definition ptr : Type := Z -> option (list Z).

Definition slice (l : list Z) (idx size : Z) : option (list Z) :=
  if (0 <=? idx) && (0 <=? size) && (idx + size <=? Z.of_nat (length l))
  then Some (take (Z.to_nat size) (drop (Z.to_nat idx) l))
  else None.

(** [&cf->data[idx]] *)
Definition frame_ptr (cf : can_frame) (idx : Z) : ptr :=
  fun size => slice (data cf) idx size.

(** ** Text *)

Local Open Scope string_scope.

Definition ascii_of_byte (b : Z) : ascii := ascii_of_N (Z.to_N (b mod 256)).

Fixpoint string_of_bytes (l : list Z) : string :=
  match l with
  | [] => EmptyString
  | b :: l' => String (ascii_of_byte b) (string_of_bytes l')
  end.

(** The bytes of a C string: everything before the first NUL. *)
Fixpoint c_str (l : list Z) : list Z :=
  match l with
  | [] => []
  | b :: l' => if (b mod 256 =? 0)%Z then [] else b :: c_str l'
  end.

Definition QUOTE : Z := 34.
Definition NUL : Z := 0.

(** printf conversions.  [%llu], [%d], [%x], [%#x], [%#llx], [%06llu], [%c]. *)
Definition fmt_llu (z : Z) : string :=
  DecimalString.NilZero.string_of_uint (N.to_uint (Z.to_N (to_u64 z))).

Definition fmt_d (z : Z) : string :=
  DecimalString.NilZero.string_of_int (Z.to_int (to_int z)).

Definition hex_digits (z : Z) : string :=
  HexadecimalString.NilZero.string_of_uint (N.to_hex_uint (Z.to_N z)).

Definition fmt_x (z : Z) : string := hex_digits (to_u32 z).

Definition fmt_hash_x (z : Z) : string :=
  if (to_u32 z =? 0)%Z then "0" else "0x" ++ hex_digits (to_u32 z).

Definition fmt_hash_llx (z : Z) : string :=
  if (to_u64 z =? 0)%Z then "0" else "0x" ++ hex_digits (to_u64 z).

Fixpoint zeros (n : nat) : string :=
  match n with O => "" | S n' => String "0" (zeros n') end.

Definition fmt_06llu (z : Z) : string :=
  let s := fmt_llu z in zeros (6 - String.length s) ++ s.

Definition fmt_c (c : Z) : string := String (ascii_of_byte c) EmptyString.

Local Close Scope string_scope.

(** ** The headers dump.c includes *)

(** canopen.h: the classified message.  The enumeration lists the objects
    [multiplex] dispatches on; [CANOPEN_UNSPEC] stands for every other value
    of the C enumeration. *)
Inductive canopen_object : Type :=
  | CANOPEN_UNSPEC
  | CANOPEN_NMT | CANOPEN_SYNC | CANOPEN_TIMESTAMP | CANOPEN_EMCY
  | CANOPEN_TPDO1 | CANOPEN_TPDO2 | CANOPEN_TPDO3 | CANOPEN_TPDO4
  | CANOPEN_RPDO1 | CANOPEN_RPDO2 | CANOPEN_RPDO3 | CANOPEN_RPDO4
  | CANOPEN_TSDO | CANOPEN_RSDO | CANOPEN_HEARTBEAT.

(** [struct canopen_msg]: the fields dump.c reads. *)
Record canopen_msg : Type := mk_canopen_msg {
  object : canopen_object;
  id : Z
}.

(** canopen.h: [canopen_get_object_type(&msg, cf)] fills [msg] and returns 0,
    or returns non-zero ([None] here). *)
Class canopen_h : Type := {
  canopen_get_object_type : can_frame -> option canopen_msg
}.

(** canopen/nmt.h *)
Class nmt_h : Type := {
  nmt_get_nodeid : can_frame -> Z;
  nmt_get_cs : can_frame -> Z;
  NMT_CS_START : Z;
  NMT_CS_STOP : Z;
  NMT_CS_ENTER_PREOPERATIONAL : Z;
  NMT_CS_RESET_NODE : Z;
  NMT_CS_RESET_COMMUNICATION : Z;
  NMT_STATE_STOPPED : Z;
  NMT_STATE_OPERATIONAL : Z;
  NMT_STATE_PREOPERATIONAL : Z
}.

(** canopen/heartbeat.h *)
Class heartbeat_h : Type := {
  heartbeat_get_state : can_frame -> Z;
  heartbeat_is_bootup : can_frame -> bool
}.

(** canopen/emcy.h and canopen/error.h *)
Class emcy_h : Type := {
  emcy_get_code : can_frame -> Z;
  emcy_get_register : can_frame -> Z;
  emcy_get_manufacturer_error : can_frame -> Z;
  error_code_to_string : Z -> Z -> string
}.

(** canopen/sdo.h and canopen/sdo-dict.h *)
Class sdo_h : Type := {
  SDO_SEGMENT_IDX : Z;
  SDO_EXPEDIATED_DATA_IDX : Z;
  SDO_MUX : Z -> Z -> Z;
  sdo_get_cs : can_frame -> Z;
  SDO_CCS_DL_INIT_REQ : Z;
  SDO_CCS_DL_SEG_REQ : Z;
  SDO_CCS_UL_INIT_REQ : Z;
  SDO_CCS_UL_SEG_REQ : Z;
  SDO_CCS_ABORT : Z;
  SDO_SCS_DL_INIT_RES : Z;
  SDO_SCS_DL_SEG_RES : Z;
  SDO_SCS_UL_INIT_RES : Z;
  SDO_SCS_UL_SEG_RES : Z;
  SDO_SCS_ABORT : Z;
  sdo_is_expediated : can_frame -> bool;
  sdo_is_size_indicated : can_frame -> bool;
  sdo_is_end_segment : can_frame -> bool;
  sdo_get_index : can_frame -> Z;
  sdo_get_subindex : can_frame -> Z;
  sdo_get_indicated_size : can_frame -> Z;
  sdo_get_expediated_size : can_frame -> Z;
  sdo_get_abort_code : can_frame -> Z;
  sdo_strerror : Z -> string;
  sdo_dict_type : Z -> Z;
  CANOPEN_VISIBLE_STRING : Z
}.

(** canopen/dump.h: the bits of [enum co_dump_options]. *)
Class dump_h : Type := {
  CO_DUMP_TIMESTAMP : Z;
  CO_DUMP_FILTER_NMT : Z;
  CO_DUMP_FILTER_SYNC : Z;
  CO_DUMP_FILTER_TIMESTAMP : Z;
  CO_DUMP_FILTER_EMCY : Z;
  CO_DUMP_FILTER_SDO : Z;
  CO_DUMP_FILTER_HEARTBEAT : Z;
  CO_DUMP_PDO_FILTER_SHIFT : Z;
  CO_DUMP_FILTER_MASK : Z
}.

(** The two formatting helpers dump.c only declares or includes:
    [hexdump(data, size)] (declared at the top of dump.c) on the bytes it is
    given, and [byteorder2(dst, src, dst_size, src_size)] (net-util.h) as the
    integer it leaves in [dst], from the old value, the source bytes and
    [dst_size]. *)
Class util_h : Type := {
  hexdump : list Z -> string;
  byteorder2 : Z -> list Z -> Z -> Z
}.

(** ** vector.h *)

(** Modelled from the spec: vector.h is not among the sources.  The spec
    calls the accumulator a growable byte buffer that is reserved, cleared
    and appended to; [struct vector] is its contents up to [index] (dump.c
    reads [.data] and [.index]) and its capacity [size]. *)
Record vector : Type := mk_vector {
  vdata : list Z;
  vsize : Z
}.

Definition vindex (v : vector) : Z := Z.of_nat (length (vdata v)).

Definition vector_init (size : Z) : vector := mk_vector [] size.

Definition vector_reserve (v : vector) (size : Z) : vector :=
  mk_vector (vdata v) (Z.max (vsize v) size).

Definition vector_clear (v : vector) : vector := mk_vector [] (vsize v).

Definition vector_append (v : vector) (bytes : list Z) : vector :=
  let v' := vector_reserve v (vindex v + Z.of_nat (length bytes)) in
  mk_vector (vdata v' ++ bytes) (vsize v').

Definition vector_assign (v : vector) (bytes : list Z) : vector :=
  vector_append (vector_clear v) bytes.

(** [v.data], as a pointer into the [v.index] bytes the vector holds. *)
Definition vector_ptr (v : vector) : ptr := fun size => slice (vdata v) 0 size.

(** ** The state of the dumper *)

(** [struct node_state] *)
Record node_state : Type := mk_node_state {
  current_mux : Z;
  sdo_data : vector;
  device_type : Z
}.

(** The file-scope variables of dump.c and the text written to stdout. *)
Record dump_state : Type := mk_dump_state {
  options_ : Z;
  node_state_ : list node_state;
  current_time_ : Z;
  string_buffer_ : vector;
  stdout : string
}.

(** The static initialisers: [options_ = 0], [node_state_[127] = { 0 }],
    [current_time_ = 0], and an empty stream. *)
Definition node_state_zero : node_state :=
  mk_node_state 0 (mk_vector [] 0) 0.

Definition initial_state : dump_state :=
  mk_dump_state 0 (replicate 127 node_state_zero) 0 (mk_vector [] 0) EmptyString.

(** ** The monad of the decoders *)

Inductive trap : Type :=
  | NullDereference
  | OutOfBounds
  | Aborted.

Inductive outcome (A : Type) : Type :=
  | Ok (a : A) (s : dump_state)
  | Trap (t : trap).

Arguments Ok {A} a s.
Arguments Trap {A} t.

Definition M (A : Type) : Type := dump_state -> outcome A.

Definition ret {A} (a : A) : M A := fun s => Ok a s.

Definition bind {A B} (m : M A) (k : A -> M B) : M B :=
  fun s => match m s with
           | Ok a s' => k a s'
           | Trap t => Trap t
           end.

Definition raise {A} (t : trap) : M A := fun _ => Trap t.

Definition gets {A} (f : dump_state -> A) : M A := fun s => Ok (f s) s.

Definition modify (f : dump_state -> dump_state) : M unit := fun s => Ok tt (f s).

Declare Scope dump_scope.
Delimit Scope dump_scope with dump.
Notation "x <- m ;; k" := (bind m (fun x => k))
  (at level 100, m at next level, right associativity) : dump_scope.
Notation "m ;; k" := (bind m (fun _ => k))
  (at level 100, right associativity) : dump_scope.
Local Open Scope dump_scope.

(** [if (c) m;] with no else branch. *)
Definition when (c : bool) (m : M unit) : M unit := if c then m else ret tt.

(** The state with [text] appended to the stream. *)
Definition emit (s : dump_state) (text : string) : dump_state :=
  mk_dump_state (options_ s) (node_state_ s) (current_time_ s) (string_buffer_ s)
    (stdout s ++ text).

(** The state with entry [i] of [node_state_] replaced. *)
Definition put_node (s : dump_state) (i : nat) (ns : node_state) : dump_state :=
  mk_dump_state (options_ s) (<[i := ns]> (node_state_ s)) (current_time_ s)
    (string_buffer_ s) (stdout s).

(** [printf]: the text is appended to the stream. *)
Definition printf (text : string) : M unit := modify (fun s => emit s text).

(** Reading [size] bytes through a pointer. *)
Definition read (p : ptr) (size : Z) : M (list Z) :=
  match p size with
  | Some bytes => ret bytes
  | None => raise OutOfBounds
  end.

(** A [struct node_state*]: NULL, or the index of an entry of [node_state_]. *)
Definition node_ptr : Type := option nat.

(** [*state] *)
Definition load (state : node_ptr) : M node_state :=
  match state with
  | None => raise NullDereference
  | Some i => fun s => match node_state_ s !! i with
                       | Some ns => Ok ns s
                       | None => Trap OutOfBounds
                       end
  end.

(** [*state = ns] *)
Definition store (state : node_ptr) (ns : node_state) : M unit :=
  match state with
  | None => raise NullDereference
  | Some i => fun s => match node_state_ s !! i with
                       | Some _ => Ok tt (put_node s i ns)
                       | None => Trap OutOfBounds
                       end
  end.

Definition set_current_mux (ns : node_state) (mux : Z) : node_state :=
  mk_node_state mux (sdo_data ns) (device_type ns).

Definition set_sdo_data (ns : node_state) (v : vector) : node_state :=
  mk_node_state (current_mux ns) v (device_type ns).

Definition set_device_type (ns : node_state) (d : Z) : node_state :=
  mk_node_state (current_mux ns) (sdo_data ns) d.

(** The state with [string_buffer_], [options_] or [current_time_] replaced. *)
Definition put_buffer (s : dump_state) (v : vector) : dump_state :=
  mk_dump_state (options_ s) (node_state_ s) (current_time_ s) v (stdout s).

Definition put_options (s : dump_state) (o : Z) : dump_state :=
  mk_dump_state o (node_state_ s) (current_time_ s) (string_buffer_ s) (stdout s).

Definition put_time (s : dump_state) (t : Z) : dump_state :=
  mk_dump_state (options_ s) (node_state_ s) t (string_buffer_ s) (stdout s).

Definition set_string_buffer (v : vector) : M unit :=
  modify (fun s => put_buffer s v).

Definition set_options (o : Z) : M unit :=
  modify (fun s => put_options s o).

(** A C integer used as a condition. *)
Definition truthy (z : Z) : bool := negb (z =? 0).

(** ** dump.c *)

Local Open Scope string_scope.
Local Open Scope Z_scope.

Definition NL : string := String "010"%char EmptyString.
Definition DQ : string := String "034"%char EmptyString.

Section Dumper.

Context {canopen : canopen_h} {nmt : nmt_h} {heartbeat : heartbeat_h}
        {emcy : emcy_h} {sdo : sdo_h} {dumph : dump_h} {util : util_h}.

(** [printx(cf, fmt, ...)]: the formatted text, the remote-request marker
    when the frame carries [CAN_RTR_FLAG], and a newline. *)
Definition rtr_text (cf : can_frame) : string :=
  if truthy (Z.land (can_id cf) CAN_RTR_FLAG) then " [RTR]" else "".

Definition printx (cf : can_frame) (text : string) : M unit :=
  printf (text ++ rtr_text cf ++ NL).

Definition print_ts : M unit :=
  t <- gets current_time_ ;;
  o <- gets options_ ;;
  when (truthy (Z.land o CO_DUMP_TIMESTAMP))
       (printf (fmt_llu (t / 1000000) ++ "." ++ fmt_06llu (t mod 1000000) ++ " ")).

Definition get_node_state (nodeid : Z) : node_ptr :=
  if (0 <? nodeid) && (nodeid <=? 127) then Some (Z.to_nat (nodeid - 1)) else None.

Definition node_state_init : M unit :=
  modify (fun s =>
    mk_dump_state (options_ s)
      (map (fun ns => set_sdo_data ns (vector_init 8)) (node_state_ s))
      (current_time_ s) (string_buffer_ s) (stdout s)).

Definition nmt_cs_str (cs : Z) : string :=
  if cs =? NMT_CS_START then "start"
  else if cs =? NMT_CS_STOP then "stop"
  else if cs =? NMT_CS_ENTER_PREOPERATIONAL then "enter-preoperational"
  else if cs =? NMT_CS_RESET_NODE then "reset-node"
  else if cs =? NMT_CS_RESET_COMMUNICATION then "reset-communication"
  else "unknown".

Definition dump_nmt (cf : can_frame) : M Z :=
  o <- gets options_ ;;
  if negb (truthy (Z.land o CO_DUMP_FILTER_NMT)) then ret 0 else
  let nodeid := nmt_get_nodeid cf in
  let cs := nmt_get_cs cf in
  print_ts ;;
  (if nodeid =? 0
   then printx cf ("NMT ALL " ++ nmt_cs_str cs)
   else printx cf ("NMT " ++ fmt_d nodeid ++ " " ++ nmt_cs_str cs)) ;;
  ret 0.

Definition dump_sync (cf : can_frame) : M Z :=
  o <- gets options_ ;;
  if negb (truthy (Z.land o CO_DUMP_FILTER_SYNC)) then ret 0 else
  print_ts ;;
  printx cf "SYNC" ;;
  ret 0.

Definition dump_timestamp (cf : can_frame) : M Z :=
  o <- gets options_ ;;
  if negb (truthy (Z.land o CO_DUMP_FILTER_TIMESTAMP)) then ret 0 else
  print_ts ;;
  printx cf "TIMESTAMP TODO" ;;
  ret 0.

Definition dump_emcy (msg : canopen_msg) (cf : can_frame) : M Z :=
  o <- gets options_ ;;
  if negb (truthy (Z.land o CO_DUMP_FILTER_EMCY)) then ret 0 else
  print_ts ;;
  if can_dlc cf =? 0 then
    printx cf ("EMCY " ++ fmt_d (id msg) ++ " EMPTY") ;;
    ret 0
  else
    let state := get_node_state (id msg) in
    let code := emcy_get_code cf in
    let register_ := emcy_get_register cf in
    let manufacturer_error := emcy_get_manufacturer_error cf in
    ns <- load state ;;
    printx cf ("EMCY " ++ fmt_d (id msg) ++ " code=" ++ fmt_hash_x code
               ++ ",register=" ++ fmt_hash_x register_
               ++ ",manufacturer-error=" ++ fmt_hash_llx manufacturer_error
               ++ ",dlc=" ++ fmt_d (can_dlc cf)
               ++ ",text=" ++ DQ
               ++ error_code_to_string code (Z.land (device_type ns) 0xffff)
               ++ DQ) ;;
    ret 0.

Definition is_pdo_in_filter (n : Z) : M Z :=
  o <- gets options_ ;;
  ret (Z.land o (Z.shiftl 1 (n + CO_DUMP_PDO_FILTER_SHIFT - 1))).

Definition dump_pdo (type n : Z) (msg : canopen_msg) (cf : can_frame) : M Z :=
  in_filter <- is_pdo_in_filter n ;;
  if negb (truthy in_filter) then ret 0 else
  print_ts ;;
  bytes <- read (frame_ptr cf 0) (can_dlc cf) ;;
  printx cf (fmt_c type ++ "PDO" ++ fmt_d n ++ " " ++ fmt_d (id msg)
             ++ " length=" ++ fmt_d (can_dlc cf) ++ ",data=" ++ hexdump bytes) ;;
  ret 0.

Definition get_expediated_size (cf : can_frame) : Z :=
  let max_size := to_size_t (can_dlc cf - SDO_EXPEDIATED_DATA_IDX) in
  if sdo_is_size_indicated cf
  then MIN (to_size_t (sdo_get_expediated_size cf)) max_size
  else max_size.

Definition dump_sdo_dl_init_req (msg : canopen_msg) (cf : can_frame) : M Z :=
  let state := get_node_state (id msg) in
  let is_expediated := sdo_is_expediated cf in
  let is_size_indicated := sdo_is_size_indicated cf in
  let index := sdo_get_index cf in
  let subindex := sdo_get_subindex cf in
  when (bool_decide (is_Some state) && negb is_expediated)
       (ns <- load state ;;
        store state (set_current_mux ns (to_u32 (SDO_MUX index subindex)))) ;;
  print_ts ;;
  printf ("RSDO " ++ fmt_d (id msg) ++ " init-download-"
          ++ (if is_expediated then "expediated" else "segment")
          ++ " index=" ++ fmt_x index ++ ",subindex=" ++ fmt_d subindex) ;;
  (if negb is_expediated && is_size_indicated && (can_dlc cf =? CAN_MAX_DLC) then
     let size := to_size_t (sdo_get_indicated_size cf) in
     printx cf (",size=" ++ fmt_d size) ;;
     when (bool_decide (is_Some state))
          (ns <- load state ;;
           store state (set_sdo_data ns (vector_reserve (sdo_data ns) size)) ;;
           ns <- load state ;;
           store state (set_sdo_data ns (vector_clear (sdo_data ns))))
   else if is_expediated then
     let size := get_expediated_size cf in
     bytes <- read (frame_ptr cf SDO_EXPEDIATED_DATA_IDX) size ;;
     printx cf (",size=" ++ fmt_d size ++ ",data=" ++ hexdump bytes)
   else ret tt) ;;
  ret 0.

Definition make_string (str : ptr) (size : Z) : M string :=
  b <- gets string_buffer_ ;;
  let b := vector_assign b [QUOTE] in
  bytes <- read str size ;;
  let b := vector_append b bytes in
  let b := vector_append b [QUOTE; NUL] in
  set_string_buffer b ;;
  ret (string_of_bytes (c_str (vdata b))).

Definition get_segment_data (state : node_ptr) (data : ptr) (size : Z) : M string :=
  is_string <- match state with
               | None => ret false
               | Some _ =>
                   ns <- load state ;;
                   ret (sdo_dict_type (current_mux ns) =? CANOPEN_VISIBLE_STRING)
               end ;;
  if is_string then make_string data size
  else bytes <- read data size ;; ret (hexdump bytes).

Definition dump_sdo_dl_seg_req (msg : canopen_msg) (cf : can_frame) : M Z :=
  let state := get_node_state (id msg) in
  let is_end := sdo_is_end_segment cf in
  let data := frame_ptr cf SDO_SEGMENT_IDX in
  let size := to_size_t (can_dlc cf - SDO_SEGMENT_IDX) in
  when (bool_decide (is_Some state))
       (ns <- load state ;;
        bytes <- read data size ;;
        store state (set_sdo_data ns (vector_append (sdo_data ns) bytes))) ;;
  print_ts ;;
  text <- get_segment_data state data size ;;
  printf ("RSDO " ++ fmt_d (id msg) ++ " download-segment"
          ++ (if is_end then "-end" else "")
          ++ " size=" ++ fmt_d size ++ ",data=" ++ text) ;;
  when (bool_decide (is_Some state) && is_end)
       (ns <- load state ;;
        let final_data := vector_ptr (sdo_data ns) in
        let final_size := vindex (sdo_data ns) in
        text <- get_segment_data state final_data final_size ;;
        printf (",final-size=" ++ fmt_d final_size ++ ",final-data=" ++ text) ;;
        ns <- load state ;;
        store state (set_current_mux ns 0)) ;;
  printx cf "" ;;
  ret 0.

Definition dump_sdo_ul_init_req (msg : canopen_msg) (cf : can_frame) : M Z :=
  let index := sdo_get_index cf in
  let subindex := sdo_get_subindex cf in
  print_ts ;;
  printx cf ("RSDO " ++ fmt_d (id msg) ++ " init-upload-segment index="
             ++ fmt_x index ++ ",subindex=" ++ fmt_d subindex) ;;
  ret 0.

Definition dump_sdo_ul_seg_req (msg : canopen_msg) (cf : can_frame) : M Z :=
  print_ts ;;
  printx cf ("RSDO " ++ fmt_d (id msg) ++ " upload-segment") ;;
  ret 0.

Definition dump_sdo_abort (type : Z) (msg : canopen_msg) (cf : can_frame) : M Z :=
  let index := sdo_get_index cf in
  let subindex := sdo_get_subindex cf in
  let reason := sdo_strerror (sdo_get_abort_code cf) in
  print_ts ;;
  printx cf (fmt_c type ++ "SDO " ++ fmt_d (id msg) ++ " abort index=" ++ fmt_x index
             ++ ",subindex=" ++ fmt_d subindex ++ ",reason=" ++ DQ ++ reason ++ DQ) ;;
  ret 0.

Definition dump_rsdo (msg : canopen_msg) (cf : can_frame) : M Z :=
  o <- gets options_ ;;
  if negb (truthy (Z.land o CO_DUMP_FILTER_SDO)) then ret 0 else
  let cs := sdo_get_cs cf in
  if cs =? SDO_CCS_DL_INIT_REQ then dump_sdo_dl_init_req msg cf
  else if cs =? SDO_CCS_DL_SEG_REQ then dump_sdo_dl_seg_req msg cf
  else if cs =? SDO_CCS_UL_INIT_REQ then dump_sdo_ul_init_req msg cf
  else if cs =? SDO_CCS_UL_SEG_REQ then dump_sdo_ul_seg_req msg cf
  else if cs =? SDO_CCS_ABORT then dump_sdo_abort 82 msg cf
  else
    print_ts ;;
    printx cf ("RSDO " ++ fmt_d (id msg) ++ " unknown-command-specifier") ;;
    ret 0.

Definition dump_sdo_ul_init_res (msg : canopen_msg) (cf : can_frame) : M Z :=
  let state := get_node_state (id msg) in
  let is_expediated := sdo_is_expediated cf in
  let is_size_indicated := sdo_is_size_indicated cf in
  let index := sdo_get_index cf in
  let subindex := sdo_get_subindex cf in
  when (bool_decide (is_Some state) && negb is_expediated)
       (ns <- load state ;;
        store state (set_current_mux ns (to_u32 (SDO_MUX index subindex)))) ;;
  print_ts ;;
  printf ("TSDO " ++ fmt_d (id msg) ++ " init-upload-"
          ++ (if is_expediated then "expediated" else "segment")
          ++ " index=" ++ fmt_x index ++ ",subindex=" ++ fmt_d subindex) ;;
  (if negb is_expediated && is_size_indicated && (can_dlc cf =? CAN_MAX_DLC) then
     let size := to_size_t (sdo_get_indicated_size cf) in
     printx cf (",size=" ++ fmt_d size) ;;
     when (bool_decide (is_Some state))
          (ns <- load state ;;
           store state (set_sdo_data ns (vector_reserve (sdo_data ns) size)) ;;
           ns <- load state ;;
           store state (set_sdo_data ns (vector_clear (sdo_data ns))))
   else if is_expediated then
     let size := get_expediated_size cf in
     let payload := frame_ptr cf SDO_EXPEDIATED_DATA_IDX in
     when ((index =? 0x1000) && (subindex =? 0))
          (ns <- load state ;;
           bytes <- read payload (MIN 4 size) ;;
           store state (set_device_type ns (byteorder2 (device_type ns) bytes 4))) ;;
     bytes <- read payload size ;;
     printx cf (",size=" ++ fmt_d size ++ ",data=" ++ hexdump bytes)
   else ret tt) ;;
  ret 0.

Definition dump_sdo_ul_seg_res (msg : canopen_msg) (cf : can_frame) : M Z :=
  let state := get_node_state (id msg) in
  let is_end := sdo_is_end_segment cf in
  let data := frame_ptr cf SDO_SEGMENT_IDX in
  let size := to_size_t (can_dlc cf - SDO_SEGMENT_IDX) in
  when (bool_decide (is_Some state))
       (ns <- load state ;;
        bytes <- read data size ;;
        store state (set_sdo_data ns (vector_append (sdo_data ns) bytes))) ;;
  print_ts ;;
  text <- get_segment_data state data size ;;
  printf ("TSDO " ++ fmt_d (id msg) ++ " upload-segment"
          ++ (if is_end then "-end" else "")
          ++ " size=" ++ fmt_d size ++ ",data=" ++ text) ;;
  when (bool_decide (is_Some state) && is_end)
       (ns <- load state ;;
        let final_data := vector_ptr (sdo_data ns) in
        let final_size := vindex (sdo_data ns) in
        text <- get_segment_data state final_data final_size ;;
        printf (",final-size=" ++ fmt_d final_size ++ ",final-data=" ++ text)) ;;
  printx cf "" ;;
  ret 0.

Definition dump_sdo_dl_init_res (msg : canopen_msg) (cf : can_frame) : M Z :=
  print_ts ;;
  printx cf ("TSDO " ++ fmt_d (id msg) ++ " init-download-segment") ;;
  ret 0.

Definition dump_sdo_dl_seg_res (msg : canopen_msg) (cf : can_frame) : M Z :=
  let is_end := sdo_is_end_segment cf in
  print_ts ;;
  printx cf ("TSDO " ++ fmt_d (id msg) ++ " download-segment"
             ++ (if is_end then "-end" else "")) ;;
  ret 0.

Definition dump_tsdo (msg : canopen_msg) (cf : can_frame) : M Z :=
  o <- gets options_ ;;
  if negb (truthy (Z.land o CO_DUMP_FILTER_SDO)) then ret 0 else
  let cs := sdo_get_cs cf in
  if cs =? SDO_SCS_DL_INIT_RES then dump_sdo_dl_init_res msg cf
  else if cs =? SDO_SCS_DL_SEG_RES then dump_sdo_dl_seg_res msg cf
  else if cs =? SDO_SCS_UL_INIT_RES then dump_sdo_ul_init_res msg cf
  else if cs =? SDO_SCS_UL_SEG_RES then dump_sdo_ul_seg_res msg cf
  else if cs =? SDO_SCS_ABORT then dump_sdo_abort 84 msg cf
  else
    print_ts ;;
    printx cf ("TSDO " ++ fmt_d (id msg) ++ " unknown-command-specifier") ;;
    ret 0.

Definition state_str (state : Z) : string :=
  if state =? NMT_STATE_STOPPED then "stopped"
  else if state =? NMT_STATE_OPERATIONAL then "operational"
  else if state =? NMT_STATE_PREOPERATIONAL then "pre-operational"
  else "UNKNOWN".

Definition dump_heartbeat (msg : canopen_msg) (cf : can_frame) : M Z :=
  o <- gets options_ ;;
  if negb (truthy (Z.land o CO_DUMP_FILTER_HEARTBEAT)) then ret 0 else
  let state := heartbeat_get_state cf in
  print_ts ;;
  (if heartbeat_is_bootup cf then
     printx cf ("HEARTBEAT " ++ fmt_d (id msg) ++ " bootup")
   else if state =? 1 then
     printx cf ("HEARTBEAT " ++ fmt_d (id msg) ++ " poll")
   else
     printx cf ("HEARTBEAT " ++ fmt_d (id msg) ++ " state=" ++ state_str state)) ;;
  ret 0.

Definition multiplex (cf : can_frame) : M Z :=
  match canopen_get_object_type cf with
  | None => ret (-1)
  | Some msg =>
      match object msg with
      | CANOPEN_NMT => dump_nmt cf
      | CANOPEN_SYNC => dump_sync cf
      | CANOPEN_TIMESTAMP => dump_timestamp cf
      | CANOPEN_EMCY => dump_emcy msg cf
      | CANOPEN_TPDO1 => dump_pdo 84 1 msg cf
      | CANOPEN_TPDO2 => dump_pdo 84 2 msg cf
      | CANOPEN_TPDO3 => dump_pdo 84 3 msg cf
      | CANOPEN_TPDO4 => dump_pdo 84 4 msg cf
      | CANOPEN_RPDO1 => dump_pdo 82 1 msg cf
      | CANOPEN_RPDO2 => dump_pdo 82 2 msg cf
      | CANOPEN_RPDO3 => dump_pdo 82 3 msg cf
      | CANOPEN_RPDO4 => dump_pdo 82 4 msg cf
      | CANOPEN_TSDO => dump_tsdo msg cf
      | CANOPEN_RSDO => dump_rsdo msg cf
      | CANOPEN_HEARTBEAT => dump_heartbeat msg cf
      | CANOPEN_UNSPEC => raise Aborted
      end
  end.

(** The body shared by [run_dumper] and [dump_file]: each frame is stamped
    into [current_time_] and handed to [multiplex], whose result is dropped. *)
Fixpoint dump_frames (frames : list (Z * can_frame)) : M unit :=
  match frames with
  | [] => ret tt
  | (t, cf) :: rest =>
      modify (fun s => put_time s t) ;;
      multiplex cf ;;
      dump_frames rest
  end.

Definition resolve_filters (options : Z) : M unit :=
  o <- gets options_ ;;
  set_options (Z.lor o (Z.land options (Z.lnot CO_DUMP_FILTER_MASK))) ;;
  o <- gets options_ ;;
  set_options (Z.lor o (if truthy (Z.land options CO_DUMP_FILTER_MASK)
                        then Z.land options CO_DUMP_FILTER_MASK
                        else CO_DUMP_FILTER_MASK)).

End Dumper.

(** ** One implementation of the headers *)

(** Modelled from the spec: the headers canopen.h, canopen/nmt.h,
    canopen/heartbeat.h, canopen/emcy.h, canopen/error.h, canopen/sdo.h,
    canopen/sdo-dict.h, canopen/dump.h and net-util.h, and the function
    [hexdump], are not among the sources.  The theorems hold for every
    implementation of their interfaces; to run the decoders on concrete
    frames one implementation is needed.  This one takes from the spec the
    function code in the high bits and the node id in the low seven bits of
    the identifier, the heartbeat state byte, the emergency fields and the
    expedited payload of the download scenario; where the spec is silent (bit
    positions in the command byte, values of the enumerations and of the
    option bits) it follows the CANopen standard, CiA 301, or picks distinct
    bits. *)
Module CiA301.

Definition byte_at (cf : can_frame) (i : nat) : Z := nth i (data cf) 0.

(** Little-endian value of a byte string. *)
Fixpoint le_value (l : list Z) : Z :=
  match l with
  | [] => 0
  | b :: l' => b mod 256 + 256 * le_value l'
  end.

Definition classify (cf : can_frame) : option canopen_msg :=
  let fc := Z.land (Z.shiftr (can_id cf) 7) 0xf in
  let nodeid := Z.land (can_id cf) 0x7f in
  let msg o := Some (mk_canopen_msg o nodeid) in
  match fc with
  | 0 => msg CANOPEN_NMT
  | 1 => msg (if nodeid =? 0 then CANOPEN_SYNC else CANOPEN_EMCY)
  | 2 => msg CANOPEN_TIMESTAMP
  | 3 => msg CANOPEN_TPDO1
  | 4 => msg CANOPEN_RPDO1
  | 5 => msg CANOPEN_TPDO2
  | 6 => msg CANOPEN_RPDO2
  | 7 => msg CANOPEN_TPDO3
  | 8 => msg CANOPEN_RPDO3
  | 9 => msg CANOPEN_TPDO4
  | 10 => msg CANOPEN_RPDO4
  | 11 => msg CANOPEN_TSDO
  | 12 => msg CANOPEN_RSDO
  | 14 => msg CANOPEN_HEARTBEAT
  | _ => None
  end.

#[export] Instance canopen : canopen_h := {|
  canopen_get_object_type := classify
|}.

#[export] Instance nmt : nmt_h := {|
  nmt_get_nodeid cf := byte_at cf 1;
  nmt_get_cs cf := byte_at cf 0;
  NMT_CS_START := 1;
  NMT_CS_STOP := 2;
  NMT_CS_ENTER_PREOPERATIONAL := 128;
  NMT_CS_RESET_NODE := 129;
  NMT_CS_RESET_COMMUNICATION := 130;
  NMT_STATE_STOPPED := 4;
  NMT_STATE_OPERATIONAL := 5;
  NMT_STATE_PREOPERATIONAL := 127
|}.

#[export] Instance heartbeat : heartbeat_h := {|
  heartbeat_get_state cf := byte_at cf 0;
  heartbeat_is_bootup cf := byte_at cf 0 =? 0
|}.

#[export] Instance emcy : emcy_h := {|
  emcy_get_code cf := le_value (take 2 (data cf));
  emcy_get_register cf := byte_at cf 2;
  emcy_get_manufacturer_error cf := le_value (take 5 (drop 3 (data cf)));
  error_code_to_string code profile := "Unknown"
|}.

#[export] Instance sdo : sdo_h := {|
  SDO_SEGMENT_IDX := 1;
  SDO_EXPEDIATED_DATA_IDX := 4;
  SDO_MUX index subindex := Z.lor (Z.shiftl index 8) subindex;
  sdo_get_cs cf := Z.shiftr (byte_at cf 0) 5;
  SDO_CCS_DL_INIT_REQ := 1;
  SDO_CCS_DL_SEG_REQ := 0;
  SDO_CCS_UL_INIT_REQ := 2;
  SDO_CCS_UL_SEG_REQ := 3;
  SDO_CCS_ABORT := 4;
  SDO_SCS_DL_INIT_RES := 3;
  SDO_SCS_DL_SEG_RES := 1;
  SDO_SCS_UL_INIT_RES := 2;
  SDO_SCS_UL_SEG_RES := 0;
  SDO_SCS_ABORT := 4;
  sdo_is_expediated cf := Z.testbit (byte_at cf 0) 1;
  sdo_is_size_indicated cf := Z.testbit (byte_at cf 0) 0;
  sdo_is_end_segment cf := Z.testbit (byte_at cf 0) 0;
  sdo_get_index cf := le_value (take 2 (drop 1 (data cf)));
  sdo_get_subindex cf := byte_at cf 3;
  sdo_get_indicated_size cf := le_value (take 4 (drop 4 (data cf)));
  sdo_get_expediated_size cf := 4 - Z.land (Z.shiftr (byte_at cf 0) 2) 3;
  sdo_get_abort_code cf := le_value (take 4 (drop 4 (data cf)));
  sdo_strerror code := "Unknown";
  sdo_dict_type mux := if Z.shiftr mux 8 =? 0x1008 then 9 else 7;
  CANOPEN_VISIBLE_STRING := 9
|}.

#[export] Instance dumph : dump_h := {|
  CO_DUMP_TIMESTAMP := 2;
  CO_DUMP_FILTER_NMT := 8;
  CO_DUMP_FILTER_SYNC := 16;
  CO_DUMP_FILTER_TIMESTAMP := 32;
  CO_DUMP_FILTER_EMCY := 64;
  CO_DUMP_FILTER_SDO := 128;
  CO_DUMP_FILTER_HEARTBEAT := 256;
  CO_DUMP_PDO_FILTER_SHIFT := 9;
  CO_DUMP_FILTER_MASK := 0x1ff8
|}.

Definition hex_byte (b : Z) : string :=
  hex_digits (b mod 256 / 16) ++ hex_digits (b mod 16).

Fixpoint hex_bytes (l : list Z) : string :=
  match l with
  | [] => ""
  | [b] => hex_byte b
  | b :: l' => hex_byte b ++ " " ++ hex_bytes l'
  end.

#[export] Instance util : util_h := {|
  hexdump := hex_bytes;
  byteorder2 old bytes dst_size := le_value bytes
|}.

(** The state after [node_state_init] and [resolve_filters 0]: every filter
    enabled, no timestamps. *)
Definition started : dump_state :=
  mk_dump_state 0x1ff8 (replicate 127 (mk_node_state 0 (vector_init 8) 0)) 0
    (vector_init 256) "".

End CiA301.

(** ** Vocabulary of the specification *)

(** The two directions of a segmented transfer: a download is decoded from
    the requests (RSDO), an upload from the responses (TSDO). *)
Inductive direction : Type := Download | Upload.

(** Number of line terminators in a text. *)
Fixpoint lines (text : string) : nat :=
  match text with
  | EmptyString => O
  | String c rest => ((if Ascii.eqb c "010"%char then 1 else 0) + lines rest)%nat
  end.

Section Vocabulary.

Context {canopen : canopen_h} {nmt : nmt_h} {heartbeat : heartbeat_h}
        {emcy : emcy_h} {sdo : sdo_h} {dumph : dump_h} {util : util_h}.

(** What [print_ts] writes in state [s]. *)
Definition ts_text (s : dump_state) : string :=
  if truthy (Z.land (options_ s) CO_DUMP_TIMESTAMP)
  then fmt_llu (current_time_ s / 1000000) ++ "."
       ++ fmt_06llu (current_time_ s mod 1000000) ++ " "
  else "".

(** The hex-versus-string rule: the text of [bytes] for a node whose active
    multiplexer is [mux]. *)
Definition segment_text (mux : Z) (bytes : list Z) : string :=
  if sdo_dict_type mux =? CANOPEN_VISIBLE_STRING
  then string_of_bytes (c_str ([QUOTE] ++ bytes ++ [QUOTE; NUL])%list)
  else hexdump bytes.

(** The payload slice of a segment frame: the bytes from the segment data
    offset up to the data length. *)
Definition segment_payload (cf : can_frame) : list Z :=
  take (Z.to_nat (can_dlc cf - SDO_SEGMENT_IDX))
       (drop (Z.to_nat SDO_SEGMENT_IDX) (data cf)).

(** A segment frame whose payload slice lies inside its eight data bytes. *)
Definition segment_ok (cf : can_frame) : Prop :=
  SDO_SEGMENT_IDX <= can_dlc cf <= CAN_MAX_DLC /\ length (data cf) = 8%nat.

(** The initiate and the segment decoder of each direction. *)
Definition sdo_initiate (d : direction) : canopen_msg -> can_frame -> M Z :=
  match d with
  | Download => dump_sdo_dl_init_req
  | Upload => dump_sdo_ul_init_res
  end.

Definition sdo_segment (d : direction) : canopen_msg -> can_frame -> M Z :=
  match d with
  | Download => dump_sdo_dl_seg_req
  | Upload => dump_sdo_ul_seg_res
  end.

(** Segment frames decoded one after the other, in arrival order. *)
Fixpoint sdo_segments (d : direction) (msg : canopen_msg) (frames : list can_frame)
  : M unit :=
  match frames with
  | [] => ret tt
  | cf :: rest => sdo_segment d msg cf ;; sdo_segments d msg rest
  end.

(** An initiate that opens a segmented transfer and declares its size. *)
Definition declares_size (cf : can_frame) : Prop :=
  sdo_is_expediated cf = false /\ sdo_is_size_indicated cf = true
  /\ can_dlc cf = CAN_MAX_DLC.

(** The text an initiate decoder prints before it looks at the size: the
    node, the kind of transfer and the multiplexer. *)
Definition initiate_head (d : direction) (msg : canopen_msg) (cf : can_frame) : string :=
  match d with
  | Download => "RSDO " ++ fmt_d (id msg) ++ " init-download-"
  | Upload => "TSDO " ++ fmt_d (id msg) ++ " init-upload-"
  end ++ (if sdo_is_expediated cf then "expediated" else "segment")
  ++ " index=" ++ fmt_x (sdo_get_index cf)
  ++ ",subindex=" ++ fmt_d (sdo_get_subindex cf).

(** The text of one segment event after the timestamp: the per-segment chunk
    of [bytes] and, on the end flag, the accumulated buffer [total]. *)
Definition segment_chunk_text (d : direction) (msg : canopen_msg) (cf : can_frame)
    (mux : Z) (bytes : list Z) : string :=
  match d with
  | Download => "RSDO " ++ fmt_d (id msg) ++ " download-segment"
  | Upload => "TSDO " ++ fmt_d (id msg) ++ " upload-segment"
  end ++ (if sdo_is_end_segment cf then "-end" else "")
  ++ " size=" ++ fmt_d (to_size_t (can_dlc cf - SDO_SEGMENT_IDX))
  ++ ",data=" ++ segment_text mux bytes.

Definition final_text (mux : Z) (total : list Z) : string :=
  ",final-size=" ++ fmt_d (Z.of_nat (length total))
  ++ ",final-data=" ++ segment_text mux total.

Definition segment_line (d : direction) (msg : canopen_msg) (cf : can_frame)
    (ns : node_state) : string :=
  let total := (vdata (sdo_data ns) ++ segment_payload cf)%list in
  segment_chunk_text d msg cf (current_mux ns) (segment_payload cf)
  ++ (if sdo_is_end_segment cf then final_text (current_mux ns) total else "")
  ++ rtr_text cf ++ NL.

(** The node entry a segment frame leaves behind. *)
Definition segment_node (d : direction) (cf : can_frame) (ns : node_state) : node_state :=
  mk_node_state
    (match d with
     | Download => if sdo_is_end_segment cf then 0 else current_mux ns
     | Upload => current_mux ns
     end)
    (vector_append (sdo_data ns) (segment_payload cf))
    (device_type ns).

(** The state entry of a node id, when it has one, and its accumulator and
    active multiplexer. *)
Definition node_entry (s : dump_state) (nodeid : Z) : option node_state :=
  match get_node_state nodeid with
  | Some i => node_state_ s !! i
  | None => None
  end.

Definition accumulator (s : dump_state) (nodeid : Z) : option (list Z) :=
  match node_entry s nodeid with
  | Some ns => Some (vdata (sdo_data ns))
  | None => None
  end.

Definition active_multiplexer (s : dump_state) (nodeid : Z) : option Z :=
  match node_entry s nodeid with
  | Some ns => Some (current_mux ns)
  | None => None
  end.

(** The filter bit that gates each class of [multiplex]. *)
Definition pdo_filter (n : Z) : Z := Z.shiftl 1 (n + CO_DUMP_PDO_FILTER_SHIFT - 1).

Definition class_filter (o : canopen_object) : Z :=
  match o with
  | CANOPEN_UNSPEC => 0
  | CANOPEN_NMT => CO_DUMP_FILTER_NMT
  | CANOPEN_SYNC => CO_DUMP_FILTER_SYNC
  | CANOPEN_TIMESTAMP => CO_DUMP_FILTER_TIMESTAMP
  | CANOPEN_EMCY => CO_DUMP_FILTER_EMCY
  | CANOPEN_TPDO1 | CANOPEN_RPDO1 => pdo_filter 1
  | CANOPEN_TPDO2 | CANOPEN_RPDO2 => pdo_filter 2
  | CANOPEN_TPDO3 | CANOPEN_RPDO3 => pdo_filter 3
  | CANOPEN_TPDO4 | CANOPEN_RPDO4 => pdo_filter 4
  | CANOPEN_TSDO | CANOPEN_RSDO => CO_DUMP_FILTER_SDO
  | CANOPEN_HEARTBEAT => CO_DUMP_FILTER_HEARTBEAT
  end.

(** A heartbeat line whose state is rendered as [word]. *)
Definition heartbeat_line (msg : canopen_msg) (cf : can_frame) (word : string) : string :=
  "HEARTBEAT " ++ fmt_d (id msg) ++ " " ++ word ++ rtr_text cf ++ NL.

End Vocabulary.

(** * Properties *)

(** Closes the comparison of a computed state with the stated one, field by
    field. *)
Ltac finish_state :=
  cbn [emit put_node put_buffer put_options put_time
       options_ node_state_ current_time_ string_buffer_ stdout];
  rewrite ?list_insert_insert_eq;
  change (append "" ?x) with x;
  repeat split.

Section Properties.

Context {canopen : canopen_h} {nmt : nmt_h} {heartbeat : heartbeat_h}
        {emcy : emcy_h} {sdo : sdo_h} {dumph : dump_h} {util : util_h}.

Lemma append_nil_r (a : string) : a ++ "" = a.
Proof. induction a; simpl; congruence. Qed.

Lemma append_assoc (a b c : string) : (a ++ b) ++ c = a ++ (b ++ c).
Proof. induction a; simpl; congruence. Qed.

Lemma bind_Ok {A B} (m : M A) (k : A -> M B) s a s' :
  m s = Ok a s' -> bind m k s = k a s'.
Proof. unfold bind. intros ->. reflexivity. Qed.

Lemma gets_Ok {A} (f : dump_state -> A) s : gets f s = Ok (f s) s.
Proof. reflexivity. Qed.

Lemma printf_Ok text s : printf text s = Ok tt (emit s text).
Proof. reflexivity. Qed.

Lemma printx_Ok cf text s : printx cf text s = Ok tt (emit s (text ++ rtr_text cf ++ NL)).
Proof. reflexivity. Qed.

Lemma emit_nil s : emit s "" = s.
Proof. unfold emit. rewrite append_nil_r. destruct s; reflexivity. Qed.

Lemma print_ts_Ok s : print_ts s = Ok tt (emit s (ts_text s)).
Proof.
  unfold print_ts, ts_text, bind, gets, when.
  destruct (truthy _); [reflexivity|].
  rewrite emit_nil. reflexivity.
Qed.

Lemma load_Ok i ns s : node_state_ s !! i = Some ns -> load (Some i) s = Ok ns s.
Proof. unfold load. intros ->. reflexivity. Qed.

Lemma store_Ok i ns0 ns s :
  node_state_ s !! i = Some ns0 -> store (Some i) ns s = Ok tt (put_node s i ns).
Proof. unfold store. intros ->. reflexivity. Qed.

Lemma read_Ok p size bytes s : p size = Some bytes -> read p size s = Ok bytes s.
Proof. unfold read. intros ->. reflexivity. Qed.

Lemma put_buffer_same s : put_buffer s (string_buffer_ s) = s.
Proof. destruct s; reflexivity. Qed.

Lemma slice_all (l : list Z) : slice l 0 (Z.of_nat (length l)) = Some l.
Proof.
  unfold slice.
  replace ((0 <=? 0) && (0 <=? Z.of_nat (length l)) && (0 + Z.of_nat (length l) <=? Z.of_nat (length l))) with true.
  2:{ symmetry. rewrite !andb_true_iff, !Z.leb_le. lia. }
  rewrite Nat2Z.id. simpl. rewrite firstn_all. reflexivity.
Qed.

Lemma segment_slice cf :
  0 <= SDO_SEGMENT_IDX -> segment_ok cf ->
  frame_ptr cf SDO_SEGMENT_IDX (to_size_t (can_dlc cf - SDO_SEGMENT_IDX))
  = Some (segment_payload cf).
Proof.
  intros Hidx [[Hlo Hhi] Hlen]. unfold CAN_MAX_DLC in Hhi.
  unfold frame_ptr, slice, segment_payload, to_size_t, SIZE_BITS.
  rewrite Z.mod_small by lia.
  rewrite Hlen.
  replace ((0 <=? SDO_SEGMENT_IDX) && (0 <=? can_dlc cf - SDO_SEGMENT_IDX) &&
           (SDO_SEGMENT_IDX + (can_dlc cf - SDO_SEGMENT_IDX) <=? Z.of_nat 8)) with true; [reflexivity|].
  symmetry. rewrite !andb_true_iff, !Z.leb_le. lia.
Qed.

(** [get_segment_data] on a node with an entry renders by the hex-versus-string
    rule and touches nothing but the scratch buffer. *)
Lemma get_segment_data_Ok i ns p size bytes s :
  node_state_ s !! i = Some ns -> p size = Some bytes ->
  exists b, get_segment_data (Some i) p size s
            = Ok (segment_text (current_mux ns) bytes) (put_buffer s b).
Proof.
  intros Hns Hp. unfold get_segment_data, segment_text.
  rewrite (bind_Ok _ _ s (sdo_dict_type (current_mux ns) =? CANOPEN_VISIBLE_STRING) s).
  2:{ rewrite (bind_Ok _ _ s ns s) by (apply load_Ok; exact Hns). reflexivity. }
  destruct (sdo_dict_type (current_mux ns) =? CANOPEN_VISIBLE_STRING).
  - unfold make_string, bind, gets, read, set_string_buffer, modify, ret. rewrite Hp.
    eexists. reflexivity.
  - exists (string_buffer_ s). rewrite put_buffer_same.
    unfold bind, read, ret. rewrite Hp. reflexivity.
Qed.

Lemma is_Some_true {A} (x : A) : bool_decide (is_Some (Some x)) = true.
Proof. apply bool_decide_eq_true. eauto. Qed.

Lemma lookup_put_node s i ns0 ns :
  node_state_ s !! i = Some ns0 -> node_state_ (put_node s i ns) !! i = Some ns.
Proof.
  intros H. unfold put_node; simpl. apply list_lookup_insert_eq.
  eapply lookup_lt_Some; eauto.
Qed.

Lemma sdo_segment_run d msg cf s i ns :
  get_node_state (id msg) = Some i ->
  node_state_ s !! i = Some ns ->
  0 <= SDO_SEGMENT_IDX -> segment_ok cf ->
  exists s',
    sdo_segment d msg cf s = Ok 0 s'
    /\ options_ s' = options_ s
    /\ current_time_ s' = current_time_ s
    /\ node_state_ s' = <[i := segment_node d cf ns]> (node_state_ s)
    /\ stdout s' = stdout s ++ ts_text s ++ segment_line d msg cf ns.
Proof.
  intros Hid Hns Hidx Hok.
  pose proof (segment_slice cf Hidx Hok) as Hslice.
  set (ns1 := set_sdo_data ns (vector_append (sdo_data ns) (segment_payload cf))).
  set (s1 := put_node s i ns1).
  assert (Hns1 : node_state_ s1 !! i = Some ns1) by (eapply lookup_put_node; eauto).
  set (s2 := emit s1 (ts_text s1)).
  assert (Hns2 : node_state_ s2 !! i = Some ns1) by exact Hns1.
  destruct (get_segment_data_Ok i ns1 _ _ _ s2 Hns2 Hslice) as [b Hseg].
  assert (Hfinal : vector_ptr (sdo_data ns1) (vindex (sdo_data ns1))
                   = Some (vdata (sdo_data ns) ++ segment_payload cf)%list).
  { unfold vector_ptr, vindex. rewrite slice_all. reflexivity. }
  assert (E1 : (ns <- load (Some i) ;;
                bytes <- read (frame_ptr cf SDO_SEGMENT_IDX)
                              (to_size_t (can_dlc cf - SDO_SEGMENT_IDX)) ;;
                store (Some i) (set_sdo_data ns (vector_append (sdo_data ns) bytes))) s
               = Ok tt s1).
  { rewrite (bind_Ok _ _ _ _ _ (load_Ok _ _ _ Hns)).
    rewrite (bind_Ok _ _ _ _ _ (read_Ok _ _ _ _ Hslice)).
    eapply store_Ok; eauto. }
  set (s3 := put_buffer s2 b) in *.
  assert (Hns3 : forall t, node_state_ (emit s3 t) !! i = Some ns1) by (intros; exact Hns1).
  destruct d; unfold sdo_segment.
  - unfold dump_sdo_dl_seg_req. rewrite Hid, is_Some_true.
    cbn [when andb].
    rewrite (bind_Ok _ _ _ _ _ E1).
    rewrite (bind_Ok _ _ _ _ _ (print_ts_Ok s1)). fold s2.
    rewrite (bind_Ok _ _ _ _ _ Hseg).
    rewrite (bind_Ok _ _ _ _ _ (printf_Ok _ _)).
    unfold segment_line, segment_node, segment_chunk_text.
    destruct (sdo_is_end_segment cf).
    + match goal with |- context [emit s3 ?t] => set (s4 := emit s3 t) end.
      assert (Hns4 : node_state_ s4 !! i = Some ns1) by exact Hns1.
      destruct (get_segment_data_Ok i ns1 _ _ _ s4 Hns4 Hfinal) as [b2 Hseg2].
      rewrite (bind_Ok _ _ s4 tt (put_node (emit (put_buffer s4 b2)
                 (final_text (current_mux ns) (vdata (sdo_data ns) ++ segment_payload cf)%list))
                 i (set_current_mux ns1 0))).
      2:{ unfold when. rewrite (bind_Ok _ _ _ _ _ (load_Ok _ _ _ Hns4)).
          rewrite (bind_Ok _ _ _ _ _ Hseg2).
          rewrite (bind_Ok _ _ _ _ _ (printf_Ok _ _)).
          erewrite bind_Ok by (apply load_Ok; exact Hns1).
          eapply store_Ok. exact Hns1. }
      rewrite (bind_Ok _ _ _ _ _ (printx_Ok _ _ _)).
      eexists; split; [reflexivity|].
      subst s4 s3 s2 s1. finish_state.
      change (ts_text (put_node s i ns1)) with (ts_text s).
      rewrite !append_assoc. reflexivity.
    + unfold when at 1.
      rewrite (bind_Ok _ _ _ tt _ eq_refl).
      rewrite (bind_Ok _ _ _ _ _ (printx_Ok _ _ _)).
      eexists; split; [reflexivity|].
      subst s3 s2 s1. finish_state.
      change (ts_text (put_node s i ns1)) with (ts_text s).
      rewrite !append_assoc. reflexivity.
  - unfold dump_sdo_ul_seg_res. rewrite Hid, is_Some_true.
    cbn [when andb].
    rewrite (bind_Ok _ _ _ _ _ E1).
    rewrite (bind_Ok _ _ _ _ _ (print_ts_Ok s1)). fold s2.
    rewrite (bind_Ok _ _ _ _ _ Hseg).
    rewrite (bind_Ok _ _ _ _ _ (printf_Ok _ _)).
    unfold segment_line, segment_node, segment_chunk_text.
    destruct (sdo_is_end_segment cf).
    + match goal with |- context [emit s3 ?t] => set (s4 := emit s3 t) end.
      assert (Hns4 : node_state_ s4 !! i = Some ns1) by exact Hns1.
      destruct (get_segment_data_Ok i ns1 _ _ _ s4 Hns4 Hfinal) as [b2 Hseg2].
      rewrite (bind_Ok _ _ s4 tt (emit (put_buffer s4 b2)
                 (final_text (current_mux ns) (vdata (sdo_data ns) ++ segment_payload cf)%list))).
      2:{ unfold when. rewrite (bind_Ok _ _ _ _ _ (load_Ok _ _ _ Hns4)).
          rewrite (bind_Ok _ _ _ _ _ Hseg2).
          apply printf_Ok. }
      rewrite (bind_Ok _ _ _ _ _ (printx_Ok _ _ _)).
      eexists; split; [reflexivity|].
      subst s4 s3 s2 s1. finish_state.
      change (ts_text (put_node s i ns1)) with (ts_text s).
      rewrite !append_assoc. reflexivity.
    + unfold when at 1.
      rewrite (bind_Ok _ _ _ tt _ eq_refl).
      rewrite (bind_Ok _ _ _ _ _ (printx_Ok _ _ _)).
      eexists; split; [reflexivity|].
      subst s3 s2 s1. finish_state.
      change (ts_text (put_node s i ns1)) with (ts_text s).
      rewrite !append_assoc. reflexivity.
Qed.

(** A size-declaring initiate on a node with an entry: the multiplexer is
    recorded and the accumulator comes out empty, with room for the declared
    size. *)
Lemma sdo_initiate_run d msg cf s i ns :
  get_node_state (id msg) = Some i ->
  node_state_ s !! i = Some ns ->
  declares_size cf ->
  exists s',
    sdo_initiate d msg cf s = Ok 0 s'
    /\ options_ s' = options_ s
    /\ current_time_ s' = current_time_ s
    /\ node_state_ s'
       = <[i := mk_node_state
                  (to_u32 (SDO_MUX (sdo_get_index cf) (sdo_get_subindex cf)))
                  (mk_vector [] (Z.max (vsize (sdo_data ns))
                                       (to_size_t (sdo_get_indicated_size cf))))
                  (device_type ns)]> (node_state_ s).
Proof.
  intros Hid Hns (Hexp & Hsize & Hdlc).
  set (ns1 := set_current_mux ns (to_u32 (SDO_MUX (sdo_get_index cf) (sdo_get_subindex cf)))).
  set (s1 := put_node s i ns1).
  assert (Hns1 : node_state_ s1 !! i = Some ns1) by (eapply lookup_put_node; eauto).
  assert (E1 : (ns <- load (Some i) ;;
                store (Some i) (set_current_mux ns
                  (to_u32 (SDO_MUX (sdo_get_index cf) (sdo_get_subindex cf))))) s
               = Ok tt s1).
  { rewrite (bind_Ok _ _ _ _ _ (load_Ok _ _ _ Hns)). eapply store_Ok; eauto. }
  set (size := to_size_t (sdo_get_indicated_size cf)).
  assert (E2 : forall s2, node_state_ s2 !! i = Some ns1 ->
            (ns <- load (Some i) ;;
             store (Some i) (set_sdo_data ns (vector_reserve (sdo_data ns) size)) ;;
             ns <- load (Some i) ;;
             store (Some i) (set_sdo_data ns (vector_clear (sdo_data ns)))) s2
            = Ok tt (put_node (put_node s2 i
                       (set_sdo_data ns1 (vector_reserve (sdo_data ns1) size))) i
                       (set_sdo_data ns1 (vector_clear (vector_reserve (sdo_data ns1) size))))).
  { intros s2 H2.
    rewrite (bind_Ok _ _ _ _ _ (load_Ok _ _ _ H2)).
    rewrite (bind_Ok _ _ _ _ _ (store_Ok _ _ _ _ H2)).
    erewrite bind_Ok by (apply load_Ok; eapply lookup_put_node; eauto).
    eapply store_Ok. eapply lookup_put_node; eauto. }
  destruct d; unfold sdo_initiate.
  - unfold dump_sdo_dl_init_req.
    rewrite Hid, is_Some_true, Hexp, Hsize, Hdlc, Z.eqb_refl.
    cbn [when andb negb].
    rewrite (bind_Ok _ _ _ _ _ E1).
    rewrite (bind_Ok _ _ _ _ _ (print_ts_Ok s1)).
    rewrite (bind_Ok _ _ _ _ _ (printf_Ok _ _)).
    erewrite (bind_Ok _ _ _ tt).
    2:{ rewrite (bind_Ok _ _ _ _ _ (printx_Ok _ _ _)). apply E2. exact Hns1. }
    eexists; split; [reflexivity|].
    subst s1. finish_state.
  - unfold dump_sdo_ul_init_res.
    rewrite Hid, is_Some_true, Hexp, Hsize, Hdlc, Z.eqb_refl.
    cbn [when andb negb].
    rewrite (bind_Ok _ _ _ _ _ E1).
    rewrite (bind_Ok _ _ _ _ _ (print_ts_Ok s1)).
    rewrite (bind_Ok _ _ _ _ _ (printf_Ok _ _)).
    erewrite (bind_Ok _ _ _ tt).
    2:{ rewrite (bind_Ok _ _ _ _ _ (printx_Ok _ _ _)). apply E2. exact Hns1. }
    eexists; split; [reflexivity|].
    subst s1. finish_state.
Qed.

Lemma node_entry_inv s nodeid ns :
  node_entry s nodeid = Some ns ->
  exists i, get_node_state nodeid = Some i /\ node_state_ s !! i = Some ns.
Proof.
  unfold node_entry. destruct (get_node_state nodeid) as [i|]; [|discriminate].
  intros H. exists i. split; [reflexivity | exact H].
Qed.

Lemma node_entry_lookup s nodeid i :
  get_node_state nodeid = Some i -> node_entry s nodeid = node_state_ s !! i.
Proof. unfold node_entry. intros ->. reflexivity. Qed.

(** Every segment frame appends exactly its payload slice. *)
Lemma sdo_segments_run d msg i frames :
  get_node_state (id msg) = Some i ->
  0 <= SDO_SEGMENT_IDX ->
  Forall segment_ok frames ->
  forall s ns,
    node_state_ s !! i = Some ns ->
    exists s' ns',
      sdo_segments d msg frames s = Ok tt s'
      /\ node_state_ s' !! i = Some ns'
      /\ vdata (sdo_data ns')
         = (vdata (sdo_data ns) ++ concat (map segment_payload frames))%list.
Proof.
  intros Hid Hidx Hall. induction Hall as [|cf rest Hcf Hrest IH]; intros s ns Hns.
  - exists s, ns. cbn [sdo_segments map concat]. rewrite app_nil_r. auto.
  - destruct (sdo_segment_run d msg cf s i ns Hid Hns Hidx Hcf)
      as (s1 & Hrun & _ & _ & Hnodes & _).
    assert (Hns1 : node_state_ s1 !! i = Some (segment_node d cf ns)).
    { rewrite Hnodes. apply list_lookup_insert_eq. eapply lookup_lt_Some; eauto. }
    destruct (IH s1 _ Hns1) as (s' & ns' & Hrest_run & Hns' & Hdata).
    exists s', ns'. split; [|split; [exact Hns'|]].
    + cbn [sdo_segments]. rewrite (bind_Ok _ _ _ _ _ Hrun). exact Hrest_run.
    + rewrite Hdata. cbn [segment_node sdo_data vector_append vdata vector_reserve
                          map concat].
      rewrite app_assoc. reflexivity.
Qed.

(** C3.  A segmented transfer on a node that has a state entry, in either
    direction: an initiate that declares a total size (of any value), then
    segment frames, the last with the end flag.  Every frame is decoded, the
    accumulator ends as the concatenation of the segments' payload slices in
    arrival order, and the last line renders exactly that buffer as its
    final data; the declared size plays no part. *)
Theorem segmented_round_trip d msg init pre last s ns :
  node_entry s (id msg) = Some ns ->
  0 <= SDO_SEGMENT_IDX ->
  declares_size init ->
  Forall segment_ok (pre ++ [last]) ->
  sdo_is_end_segment last = true ->
  let total := concat (map segment_payload (pre ++ [last])) in
  exists s1 s2 s3 ns2,
    sdo_initiate d msg init s = Ok 0 s1
    /\ sdo_segments d msg pre s1 = Ok tt s2
    /\ node_entry s2 (id msg) = Some ns2
    /\ sdo_segment d msg last s2 = Ok 0 s3
    /\ accumulator s3 (id msg) = Some total
    /\ stdout s3
       = stdout s2 ++ ts_text s2
         ++ segment_chunk_text d msg last (current_mux ns2) (segment_payload last)
         ++ final_text (current_mux ns2) total
         ++ rtr_text last ++ NL.
Proof.
  intros Hentry Hidx Hinit Hall Hend total.
  destruct (node_entry_inv _ _ _ Hentry) as (i & Hid & Hns).
  apply Forall_app in Hall as [Hpre Hlast].
  apply Forall_inv in Hlast.
  destruct (sdo_initiate_run d msg init s i ns Hid Hns Hinit)
    as (s1 & Hrun1 & _ & _ & Hnodes1).
  match type of Hnodes1 with _ = <[_ := ?n]> _ => set (ns1 := n) in * end.
  assert (Hns1 : node_state_ s1 !! i = Some ns1).
  { rewrite Hnodes1. apply list_lookup_insert_eq. eapply lookup_lt_Some; eauto. }
  destruct (sdo_segments_run d msg i pre Hid Hidx Hpre s1 ns1 Hns1)
    as (s2 & ns2 & Hrun2 & Hns2 & Hdata2).
  destruct (sdo_segment_run d msg last s2 i ns2 Hid Hns2 Hidx Hlast)
    as (s3 & Hrun3 & _ & _ & Hnodes3 & Hout3).
  assert (Htotal : (vdata (sdo_data ns2) ++ segment_payload last)%list = total).
  { rewrite Hdata2. subst total ns1. cbn [sdo_data vdata].
    rewrite map_app, concat_app. cbn [map concat app]. rewrite app_nil_r.
    reflexivity. }
  exists s1, s2, s3, ns2. repeat split; try assumption.
  - rewrite (node_entry_lookup _ _ _ Hid). exact Hns2.
  - unfold accumulator. rewrite (node_entry_lookup _ _ _ Hid), Hnodes3.
    rewrite list_lookup_insert_eq by (eapply lookup_lt_Some; eauto).
    cbn [segment_node sdo_data vector_append vdata vector_reserve].
    rewrite Htotal. reflexivity.
  - rewrite Hout3. unfold segment_line. rewrite Hend, Htotal. reflexivity.
Qed.

(** C5.  The end-of-segment frame on a node that has a state entry.  In both
    directions the line carries the per-segment chunk and then the whole
    accumulated buffer, both rendered by [segment_text] under the multiplexer
    that was active when the frame arrived.  The download decoder leaves the
    active multiplexer cleared (0); the upload decoder leaves it as it was. *)
Theorem end_segment_effect msg cf s ns :
  node_entry s (id msg) = Some ns ->
  0 <= SDO_SEGMENT_IDX ->
  segment_ok cf ->
  sdo_is_end_segment cf = true ->
  let total := (vdata (sdo_data ns) ++ segment_payload cf)%list in
  (exists s',
     dump_sdo_dl_seg_req msg cf s = Ok 0 s'
     /\ stdout s'
        = stdout s ++ ts_text s
          ++ segment_chunk_text Download msg cf (current_mux ns) (segment_payload cf)
          ++ final_text (current_mux ns) total
          ++ rtr_text cf ++ NL
     /\ accumulator s' (id msg) = Some total
     /\ active_multiplexer s' (id msg) = Some 0)
  /\
  (exists s',
     dump_sdo_ul_seg_res msg cf s = Ok 0 s'
     /\ stdout s'
        = stdout s ++ ts_text s
          ++ segment_chunk_text Upload msg cf (current_mux ns) (segment_payload cf)
          ++ final_text (current_mux ns) total
          ++ rtr_text cf ++ NL
     /\ accumulator s' (id msg) = Some total
     /\ active_multiplexer s' (id msg) = Some (current_mux ns)).
Proof.
  intros Hentry Hidx Hok Hend total.
  destruct (node_entry_inv _ _ _ Hentry) as (i & Hid & Hns).
  assert (Hlt : (i < length (node_state_ s))%nat) by (eapply lookup_lt_Some; eauto).
  split.
  - destruct (sdo_segment_run Download msg cf s i ns Hid Hns Hidx Hok)
      as (s' & Hrun & _ & _ & Hnodes & Hout).
    exists s'. split; [exact Hrun|]. split; [|split].
    + rewrite Hout. unfold segment_line. rewrite Hend. reflexivity.
    + unfold accumulator. rewrite (node_entry_lookup _ _ _ Hid), Hnodes.
      rewrite list_lookup_insert_eq by exact Hlt. reflexivity.
    + unfold active_multiplexer. rewrite (node_entry_lookup _ _ _ Hid), Hnodes.
      rewrite list_lookup_insert_eq by exact Hlt.
      cbn [segment_node current_mux]. rewrite Hend. reflexivity.
  - destruct (sdo_segment_run Upload msg cf s i ns Hid Hns Hidx Hok)
      as (s' & Hrun & _ & _ & Hnodes & Hout).
    exists s'. split; [exact Hrun|]. split; [|split].
    + rewrite Hout. unfold segment_line. rewrite Hend. reflexivity.
    + unfold accumulator. rewrite (node_entry_lookup _ _ _ Hid), Hnodes.
      rewrite list_lookup_insert_eq by exact Hlt. reflexivity.
    + unfold active_multiplexer. rewrite (node_entry_lookup _ _ _ Hid), Hnodes.
      rewrite list_lookup_insert_eq by exact Hlt. reflexivity.
Qed.

(** C2, as the code has it.  On a node that has a state entry, an initiate
    of either direction that opens a segmented transfer, indicates its size
    and is eight bytes long records the multiplexer and leaves the accumulator
    empty, with capacity for the declared size: nothing of an earlier
    transfer is left in it. *)
Theorem sized_initiate_clears_accumulator d msg cf s ns :
  node_entry s (id msg) = Some ns ->
  declares_size cf ->
  exists s' ns',
    sdo_initiate d msg cf s = Ok 0 s'
    /\ node_entry s' (id msg) = Some ns'
    /\ accumulator s' (id msg) = Some []
    /\ vindex (sdo_data ns') = 0
    /\ to_size_t (sdo_get_indicated_size cf) <= vsize (sdo_data ns')
    /\ active_multiplexer s' (id msg)
       = Some (to_u32 (SDO_MUX (sdo_get_index cf) (sdo_get_subindex cf))).
Proof.
  intros Hentry Hinit.
  destruct (node_entry_inv _ _ _ Hentry) as (i & Hid & Hns).
  assert (Hlt : (i < length (node_state_ s))%nat) by (eapply lookup_lt_Some; eauto).
  destruct (sdo_initiate_run d msg cf s i ns Hid Hns Hinit)
    as (s' & Hrun & _ & _ & Hnodes).
  match type of Hnodes with _ = <[_ := ?n]> _ => exists s', n end.
  assert (Hlook : node_entry s' (id msg) = node_state_ s' !! i)
    by (apply node_entry_lookup; exact Hid).
  unfold accumulator, active_multiplexer. rewrite Hlook, Hnodes.
  rewrite list_lookup_insert_eq by exact Hlt.
  repeat split; try assumption.
  cbn [sdo_data vsize]. lia.
Qed.

Lemma to_size_t_small z : 0 <= z < 2 ^ SIZE_BITS -> to_size_t z = z.
Proof. intros H. unfold to_size_t. apply Z.mod_small. exact H. Qed.

Lemma to_size_t_wrap z : - 2 ^ SIZE_BITS <= z < 0 -> to_size_t z = 2 ^ SIZE_BITS + z.
Proof.
  intros H. unfold to_size_t.
  symmetry. apply (Z.mod_unique _ _ (-1)); lia.
Qed.

Lemma to_size_t_range z : 0 <= to_size_t z < 2 ^ SIZE_BITS.
Proof. unfold to_size_t. apply Z.mod_pos_bound. reflexivity. Qed.

Lemma MIN_min a b : MIN a b = Z.min a b.
Proof. unfold MIN. destruct (Z.ltb_spec a b); lia. Qed.

(** C4.  The length [get_expediated_size] decodes from an expedited initiate
    frame.  Without the size-indicated flag it is the data length minus the
    expedited-data offset, as [size_t] computes the difference; that is the
    plain difference whenever the frame reaches the offset.  With the flag
    and a full-length frame it is the declared size clamped to the payload
    bytes after the offset. *)
Theorem get_expediated_size_decoded cf :
  0 <= can_dlc cf < 256 ->
  0 <= SDO_EXPEDIATED_DATA_IDX <= CAN_MAX_DLC ->
  0 <= sdo_get_expediated_size cf < 2 ^ SIZE_BITS ->
  (sdo_is_size_indicated cf = false ->
     get_expediated_size cf = to_size_t (can_dlc cf - SDO_EXPEDIATED_DATA_IDX)
     /\ (SDO_EXPEDIATED_DATA_IDX <= can_dlc cf ->
         get_expediated_size cf = can_dlc cf - SDO_EXPEDIATED_DATA_IDX))
  /\
  (sdo_is_size_indicated cf = true ->
   can_dlc cf = CAN_MAX_DLC ->
     get_expediated_size cf
     = Z.min (sdo_get_expediated_size cf) (CAN_MAX_DLC - SDO_EXPEDIATED_DATA_IDX)).
Proof.
  intros Hdlc Hidx Hdecl. unfold CAN_MAX_DLC in *. unfold get_expediated_size.
  split.
  - intros ->. split; [reflexivity|].
    intros Hle. apply to_size_t_small. unfold SIZE_BITS. lia.
  - intros -> ->. rewrite MIN_min.
    rewrite (to_size_t_small (sdo_get_expediated_size cf)) by exact Hdecl.
    rewrite to_size_t_small by (unfold SIZE_BITS; lia).
    reflexivity.
Qed.

Lemma slice_Some (l : list Z) idx size :
  0 <= idx -> 0 <= size -> idx + size <= Z.of_nat (length l) ->
  slice l idx size = Some (take (Z.to_nat size) (drop (Z.to_nat idx) l)).
Proof.
  intros H1 H2 H3. unfold slice.
  replace ((0 <=? idx) && (0 <=? size) && (idx + size <=? Z.of_nat (length l)))
    with true; [reflexivity|].
  symmetry. rewrite !andb_true_iff, !Z.leb_le. auto.
Qed.

Lemma slice_None (l : list Z) idx size :
  Z.of_nat (length l) < idx + size -> slice l idx size = None.
Proof.
  intros H. unfold slice.
  replace (idx + size <=? Z.of_nat (length l)) with false.
  - rewrite andb_false_r. reflexivity.
  - symmetry. apply Z.leb_gt. exact H.
Qed.

(** C10, with the upper bound it needs.  For a frame that reaches the
    expedited-data offset, the size [get_expediated_size] computes is at most
    the data length minus the offset; when the data length is also at most
    eight, the slice the hex renderer reads lies inside the payload array.
    Both bounds are needed.  A frame shorter than the offset, without the
    size-indicated flag: the subtraction wraps to 2^64 minus the shortfall and
    the read leaves the array.  A frame with a data length above eight (the
    field is an unchecked byte), without the flag: the size is the plain
    difference and the read runs past the eighth payload byte. *)
Theorem get_expediated_size_within_payload cf :
  frame_ok cf ->
  0 <= SDO_EXPEDIATED_DATA_IDX <= CAN_MAX_DLC ->
  (SDO_EXPEDIATED_DATA_IDX <= can_dlc cf ->
     0 <= get_expediated_size cf <= can_dlc cf - SDO_EXPEDIATED_DATA_IDX)
  /\
  (SDO_EXPEDIATED_DATA_IDX <= can_dlc cf <= CAN_MAX_DLC ->
     SDO_EXPEDIATED_DATA_IDX + get_expediated_size cf <= CAN_MAX_DLC
     /\ frame_ptr cf SDO_EXPEDIATED_DATA_IDX (get_expediated_size cf)
        = Some (take (Z.to_nat (get_expediated_size cf))
                     (drop (Z.to_nat SDO_EXPEDIATED_DATA_IDX) (data cf))))
  /\
  (can_dlc cf < SDO_EXPEDIATED_DATA_IDX ->
   sdo_is_size_indicated cf = false ->
     get_expediated_size cf = 2 ^ SIZE_BITS + can_dlc cf - SDO_EXPEDIATED_DATA_IDX
     /\ frame_ptr cf SDO_EXPEDIATED_DATA_IDX (get_expediated_size cf) = None)
  /\
  (CAN_MAX_DLC < can_dlc cf ->
   sdo_is_size_indicated cf = false ->
     get_expediated_size cf = can_dlc cf - SDO_EXPEDIATED_DATA_IDX
     /\ frame_ptr cf SDO_EXPEDIATED_DATA_IDX (get_expediated_size cf) = None).
Proof.
  intros (Hdlc & Hlen & _) Hidx. unfold CAN_MAX_DLC in *.
  assert (Hsize : SDO_EXPEDIATED_DATA_IDX <= can_dlc cf ->
                  0 <= get_expediated_size cf
                  <= can_dlc cf - SDO_EXPEDIATED_DATA_IDX).
  { intros Hle. unfold get_expediated_size.
    rewrite (to_size_t_small (can_dlc cf - _)) by (unfold SIZE_BITS; lia).
    destruct (sdo_is_size_indicated cf); [|lia].
    rewrite MIN_min.
    pose proof (to_size_t_range (sdo_get_expediated_size cf)). lia. }
  split; [exact Hsize|]. split; [|split].
  - intros [Hle Hmaxdlc]. specialize (Hsize Hle). split; [lia|].
    unfold frame_ptr. apply slice_Some; rewrite ?Hlen; lia.
  - intros Hshort Hflag.
    assert (Hwrap : get_expediated_size cf
                    = 2 ^ SIZE_BITS + can_dlc cf - SDO_EXPEDIATED_DATA_IDX).
    { unfold get_expediated_size. rewrite Hflag.
      rewrite to_size_t_wrap by (unfold SIZE_BITS; lia). lia. }
    split; [exact Hwrap|].
    unfold frame_ptr. apply slice_None. rewrite Hwrap, Hlen. unfold SIZE_BITS. lia.
  - intros Hlong Hflag.
    assert (Hplain : get_expediated_size cf = can_dlc cf - SDO_EXPEDIATED_DATA_IDX).
    { unfold get_expediated_size. rewrite Hflag.
      apply to_size_t_small. unfold SIZE_BITS. lia. }
    split; [exact Hplain|].
    unfold frame_ptr. apply slice_None. rewrite Hplain, Hlen. lia.
Qed.

Lemma truthy_false z : truthy z = false <-> z = 0.
Proof. unfold truthy. rewrite negb_false_iff. apply Z.eqb_eq. Qed.

Lemma truthy_true z : truthy z = true <-> z <> 0.
Proof. unfold truthy. rewrite negb_true_iff. apply Z.eqb_neq. Qed.

Lemma resolve_filters_Ok options s :
  resolve_filters options s
  = Ok tt (put_options s
       (Z.lor (Z.lor (options_ s) (Z.land options (Z.lnot CO_DUMP_FILTER_MASK)))
              (if truthy (Z.land options CO_DUMP_FILTER_MASK)
               then Z.land options CO_DUMP_FILTER_MASK
               else CO_DUMP_FILTER_MASK))).
Proof. destruct s; reflexivity. Qed.

(** C8.  [resolve_filters] on the options as [co_dump] finds them (the static
    initialiser, 0): with no filter bit in the argument every bit of the
    filter mask comes out set; with at least one, the filter bits come out as
    given; the bits outside the mask come out as given. *)
Theorem resolve_filters_resolution options s :
  options_ s = 0 ->
  exists s',
    resolve_filters options s = Ok tt s'
    /\ (Z.land options CO_DUMP_FILTER_MASK = 0 ->
        Z.land (options_ s') CO_DUMP_FILTER_MASK = CO_DUMP_FILTER_MASK)
    /\ (Z.land options CO_DUMP_FILTER_MASK <> 0 ->
        Z.land (options_ s') CO_DUMP_FILTER_MASK = Z.land options CO_DUMP_FILTER_MASK)
    /\ Z.land (options_ s') (Z.lnot CO_DUMP_FILTER_MASK)
       = Z.land options (Z.lnot CO_DUMP_FILTER_MASK)
    /\ node_state_ s' = node_state_ s
    /\ stdout s' = stdout s.
Proof.
  intros Hzero. eexists. split; [apply resolve_filters_Ok|].
  cbn [put_options options_ node_state_ stdout]. rewrite Hzero, Z.lor_0_l.
  set (m := CO_DUMP_FILTER_MASK).
  repeat split.
  - intros H0. rewrite (proj2 (truthy_false _) H0).
    apply Z.bits_inj'. intros n Hn.
    rewrite !Z.land_spec, !Z.lor_spec, !Z.land_spec, Z.lnot_spec by exact Hn.
    destruct (Z.testbit options n), (Z.testbit m n); reflexivity.
  - intros Hne. rewrite (proj2 (truthy_true _) Hne).
    apply Z.bits_inj'. intros n Hn.
    rewrite !Z.land_spec, !Z.lor_spec, !Z.land_spec, Z.lnot_spec by exact Hn.
    destruct (Z.testbit options n), (Z.testbit m n); reflexivity.
  - apply Z.bits_inj'. intros n Hn.
    destruct (truthy (Z.land options m));
      rewrite ?Z.land_spec, ?Z.lor_spec, ?Z.land_spec, ?Z.lnot_spec by exact Hn;
      rewrite ?Z.land_spec, ?Z.lnot_spec by exact Hn;
      destruct (Z.testbit options n), (Z.testbit m n); reflexivity.
Qed.

Lemma heartbeat_Ok msg cf s text :
  truthy (Z.land (options_ s) CO_DUMP_FILTER_HEARTBEAT) = true ->
  (if heartbeat_is_bootup cf then
     printx cf ("HEARTBEAT " ++ fmt_d (id msg) ++ " bootup")
   else if heartbeat_get_state cf =? 1 then
     printx cf ("HEARTBEAT " ++ fmt_d (id msg) ++ " poll")
   else
     printx cf ("HEARTBEAT " ++ fmt_d (id msg) ++ " state="
                ++ state_str (heartbeat_get_state cf)))
  = printx cf ("HEARTBEAT " ++ fmt_d (id msg) ++ " " ++ text) ->
  dump_heartbeat msg cf s
  = Ok 0 (emit (emit s (ts_text s)) (heartbeat_line msg cf text)).
Proof.
  intros Hon Hprint. unfold dump_heartbeat.
  rewrite (bind_Ok _ _ _ _ _ (gets_Ok options_ s)), Hon. cbn [negb].
  rewrite (bind_Ok _ _ _ _ _ (print_ts_Ok s)).
  rewrite Hprint.
  rewrite (bind_Ok _ _ _ _ _ (printx_Ok _ _ _)).
  unfold ret, heartbeat_line. rewrite !append_assoc. reflexivity.
Qed.

(** C9.  The state a heartbeat line renders, by the decoded state byte:
    bootup for 0, poll for 1, the name of the NMT state for the stopped,
    operational and pre-operational values, UNKNOWN for every other value.
    The header's bootup test is taken to be the test for value 0, and the
    three NMT state values to be distinct (they label one switch). *)
Theorem dump_heartbeat_rendering msg cf s :
  truthy (Z.land (options_ s) CO_DUMP_FILTER_HEARTBEAT) = true ->
  heartbeat_is_bootup cf = (heartbeat_get_state cf =? 0) ->
  NMT_STATE_STOPPED <> NMT_STATE_OPERATIONAL ->
  NMT_STATE_STOPPED <> NMT_STATE_PREOPERATIONAL ->
  NMT_STATE_OPERATIONAL <> NMT_STATE_PREOPERATIONAL ->
  let state := heartbeat_get_state cf in
  let renders word :=
    dump_heartbeat msg cf s
    = Ok 0 (emit (emit s (ts_text s)) (heartbeat_line msg cf word)) in
  (state = 0 -> renders "bootup")
  /\ (state = 1 -> renders "poll")
  /\ (state <> 0 -> state <> 1 ->
      (state = NMT_STATE_STOPPED -> renders "state=stopped")
      /\ (state = NMT_STATE_OPERATIONAL -> renders "state=operational")
      /\ (state = NMT_STATE_PREOPERATIONAL -> renders "state=pre-operational")
      /\ (state <> NMT_STATE_STOPPED -> state <> NMT_STATE_OPERATIONAL ->
          state <> NMT_STATE_PREOPERATIONAL -> renders "state=UNKNOWN")).
Proof.
  intros Hon Hboot Hso Hsp Hop state renders. subst renders. cbv beta.
  split; [|split].
  - intros H0. apply heartbeat_Ok; [exact Hon|].
    rewrite Hboot. fold state. rewrite H0. reflexivity.
  - intros H1. apply heartbeat_Ok; [exact Hon|].
    rewrite Hboot. fold state. rewrite H1. reflexivity.
  - intros H0 H1.
    assert (Hprint : forall text, state_str state = text ->
              dump_heartbeat msg cf s
              = Ok 0 (emit (emit s (ts_text s))
                        (heartbeat_line msg cf ("state=" ++ text)))).
    { intros text Htext. apply heartbeat_Ok; [exact Hon|].
      rewrite Hboot. fold state.
      rewrite (proj2 (Z.eqb_neq _ _) H0), (proj2 (Z.eqb_neq _ _) H1), Htext.
      reflexivity. }
    unfold state_str in Hprint.
    repeat split.
    + intros E. apply (Hprint "stopped"). rewrite E, Z.eqb_refl. reflexivity.
    + intros E. apply (Hprint "operational").
      rewrite E, (proj2 (Z.eqb_neq _ _) (not_eq_sym Hso)), Z.eqb_refl. reflexivity.
    + intros E. apply (Hprint "pre-operational").
      rewrite E, (proj2 (Z.eqb_neq _ _) (not_eq_sym Hsp)),
        (proj2 (Z.eqb_neq _ _) (not_eq_sym Hop)), Z.eqb_refl.
      reflexivity.
    + intros E1 E2 E3. apply (Hprint "UNKNOWN").
      rewrite (proj2 (Z.eqb_neq _ _) E1), (proj2 (Z.eqb_neq _ _) E2),
        (proj2 (Z.eqb_neq _ _) E3).
      reflexivity.
Qed.

(** A decoder that tests its filter first returns at once when the bit is
    clear. *)
Lemma filter_gate (bit : Z) (body : M Z) s :
  Z.land (options_ s) bit = 0 ->
  (o <- gets options_ ;; if negb (truthy (Z.land o bit)) then ret 0 else body) s
  = Ok 0 s.
Proof.
  intros H. rewrite (bind_Ok _ _ _ _ _ (gets_Ok options_ s)).
  rewrite (proj2 (truthy_false _) H). reflexivity.
Qed.

Lemma dump_rsdo_disabled msg cf s :
  Z.land (options_ s) CO_DUMP_FILTER_SDO = 0 -> dump_rsdo msg cf s = Ok 0 s.
Proof. apply filter_gate. Qed.

Lemma dump_tsdo_disabled msg cf s :
  Z.land (options_ s) CO_DUMP_FILTER_SDO = 0 -> dump_tsdo msg cf s = Ok 0 s.
Proof. apply filter_gate. Qed.

Lemma dump_pdo_disabled type n msg cf s :
  Z.land (options_ s) (pdo_filter n) = 0 -> dump_pdo type n msg cf s = Ok 0 s.
Proof.
  intros H. unfold dump_pdo, is_pdo_in_filter.
  rewrite (bind_Ok _ _ s (Z.land (options_ s) (pdo_filter n)) s).
  - rewrite (proj2 (truthy_false _) H). reflexivity.
  - rewrite (bind_Ok _ _ _ _ _ (gets_Ok options_ s)). reflexivity.
Qed.

(** C7.  A frame whose class has its filter bit clear: [multiplex] returns 0
    and the state it returns is the state it was given, so nothing was
    written and no entry of the node-state table changed. *)
Theorem disabled_filter_skips cf msg s :
  canopen_get_object_type cf = Some msg ->
  object msg <> CANOPEN_UNSPEC ->
  Z.land (options_ s) (class_filter (object msg)) = 0 ->
  multiplex cf s = Ok 0 s.
Proof.
  intros Hmsg Hobj Hoff. unfold multiplex. rewrite Hmsg.
  destruct (object msg); cbn [class_filter] in Hoff;
    try (exfalso; apply Hobj; reflexivity);
    try (apply dump_pdo_disabled; exact Hoff);
    try (apply filter_gate; exact Hoff).
Qed.

Lemma get_node_state_range nodeid i :
  get_node_state nodeid = Some i -> 0 < nodeid <= 127 /\ i = Z.to_nat (nodeid - 1).
Proof.
  unfold get_node_state.
  destruct (Z.ltb_spec 0 nodeid), (Z.leb_spec nodeid 127); cbn [andb];
    intros E; inversion E; lia.
Qed.

Lemma get_node_state_None nodeid :
  ~ 0 < nodeid <= 127 -> get_node_state nodeid = None.
Proof.
  intros H. unfold get_node_state.
  destruct (Z.ltb_spec 0 nodeid), (Z.leb_spec nodeid 127); cbn [andb];
    try reflexivity; lia.
Qed.

(** C1, where the code departs from it.  For a node id outside 1..127 there
    is no state entry, and two decoders dereference the entry all the same:
    [dump_emcy] on any non-empty payload, [dump_sdo_ul_init_res] on an
    expedited response for the device-type object (index 0x1000,
    subindex 0). *)
Theorem absent_node_state_dereferenced msg cf s :
  ~ 0 < id msg <= 127 ->
  (truthy (Z.land (options_ s) CO_DUMP_FILTER_EMCY) = true ->
   can_dlc cf <> 0 ->
     dump_emcy msg cf s = Trap NullDereference)
  /\
  (sdo_is_expediated cf = true ->
   sdo_get_index cf = 0x1000 ->
   sdo_get_subindex cf = 0 ->
     dump_sdo_ul_init_res msg cf s = Trap NullDereference).
Proof.
  intros Hid. apply get_node_state_None in Hid. split.
  - intros Hon Hdlc. unfold dump_emcy.
    rewrite (bind_Ok _ _ _ _ _ (gets_Ok options_ s)), Hon. cbn [negb].
    rewrite (bind_Ok _ _ _ _ _ (print_ts_Ok s)).
    rewrite (proj2 (Z.eqb_neq _ _) Hdlc), Hid. reflexivity.
  - intros Hexp Hindex Hsub. unfold dump_sdo_ul_init_res.
    rewrite Hid, Hexp, Hindex, Hsub.
    replace (bool_decide (is_Some (@None nat))) with false
      by (symmetry; apply bool_decide_eq_false; intros [? ?]; discriminate).
    cbn [andb negb when].
    rewrite (bind_Ok _ _ _ tt s eq_refl).
    rewrite (bind_Ok _ _ _ _ _ (print_ts_Ok s)).
    rewrite (bind_Ok _ _ _ _ _ (printf_Ok _ _)).
    reflexivity.
Qed.

(** Numbers, timestamps and the head of an initiate line hold no line
    terminator. *)
Lemma lines_app a b : lines (a ++ b) = (lines a + lines b)%nat.
Proof. induction a as [|c a IH]; simpl; [reflexivity|]. rewrite IH. lia. Qed.

Lemma lines_dec_uint d : lines (DecimalString.NilEmpty.string_of_uint d) = 0%nat.
Proof. induction d; simpl; auto. Qed.

Lemma lines_hex_uint d : lines (HexadecimalString.NilEmpty.string_of_uint d) = 0%nat.
Proof. induction d; simpl; auto. Qed.

Lemma lines_dec_nilzero d : lines (DecimalString.NilZero.string_of_uint d) = 0%nat.
Proof.
  unfold DecimalString.NilZero.string_of_uint.
  destruct d; try reflexivity; apply (lines_dec_uint (_ d)).
Qed.

Lemma lines_fmt_d z : lines (fmt_d z) = 0%nat.
Proof.
  unfold fmt_d, DecimalString.NilZero.string_of_int.
  destruct (Z.to_int (to_int z)) as [d|d]; simpl; apply lines_dec_nilzero.
Qed.

Lemma lines_fmt_llu z : lines (fmt_llu z) = 0%nat.
Proof. apply lines_dec_nilzero. Qed.

Lemma lines_zeros n : lines (zeros n) = 0%nat.
Proof. induction n; simpl; auto. Qed.

Lemma lines_fmt_06llu z : lines (fmt_06llu z) = 0%nat.
Proof. unfold fmt_06llu. rewrite lines_app, lines_zeros, lines_fmt_llu. reflexivity. Qed.

Lemma lines_fmt_x z : lines (fmt_x z) = 0%nat.
Proof.
  unfold fmt_x, hex_digits, HexadecimalString.NilZero.string_of_uint.
  destruct (N.to_hex_uint _) as [|d|d|d|d|d|d|d|d|d|d|d|d|d|d|d|d];
    try reflexivity; apply (lines_hex_uint (_ d)).
Qed.

Lemma lines_ts_text s : lines (ts_text s) = 0%nat.
Proof.
  unfold ts_text. destruct (truthy _); [|reflexivity].
  rewrite !lines_app, lines_fmt_llu, lines_fmt_06llu. reflexivity.
Qed.

Lemma lines_initiate_head d msg cf : lines (initiate_head d msg cf) = 0%nat.
Proof.
  unfold initiate_head.
  destruct d, (sdo_is_expediated cf);
    rewrite !lines_app, !lines_fmt_d, lines_fmt_x; reflexivity.
Qed.

(** Recording the multiplexer succeeds on a table of 127 entries, whatever
    the node id, and leaves the stream and the options alone. *)
Lemma record_mux_Ok nodeid expediated mux s :
  length (node_state_ s) = 127%nat ->
  exists s1,
    when (bool_decide (is_Some (get_node_state nodeid)) && negb expediated)
         (ns <- load (get_node_state nodeid) ;;
          store (get_node_state nodeid) (set_current_mux ns mux)) s
    = Ok tt s1
    /\ stdout s1 = stdout s /\ options_ s1 = options_ s
    /\ current_time_ s1 = current_time_ s.
Proof.
  intros Hlen.
  destruct (get_node_state nodeid) as [i|] eqn:Hid.
  - rewrite is_Some_true.
    destruct expediated; cbn [andb negb when]; [exists s; auto|].
    destruct (get_node_state_range _ _ Hid) as [Hrange Hi].
    destruct (lookup_lt_is_Some_2 (node_state_ s) i) as [ns Hns]; [lia|].
    exists (put_node s i (set_current_mux ns mux)). split; [|auto].
    rewrite (bind_Ok _ _ _ _ _ (load_Ok _ _ _ Hns)). eapply store_Ok; eauto.
  - exists s. split; [|auto].
    replace (bool_decide (is_Some (@None nat))) with false
      by (symmetry; apply bool_decide_eq_false; intros [? ?]; discriminate).
    reflexivity.
Qed.

(** C6, where the code departs from it.  An initiate that opens a segmented
    transfer without an indicated size, or that is shorter than eight bytes,
    is rendered without a line terminator and without the remote-request
    marker: the stream ends right after the subindex, and holds as many line
    terminators as before the event. *)
Theorem unsized_initiate_line_unterminated d msg cf s :
  length (node_state_ s) = 127%nat ->
  sdo_is_expediated cf = false ->
  sdo_is_size_indicated cf && (can_dlc cf =? CAN_MAX_DLC) = false ->
  exists s',
    sdo_initiate d msg cf s = Ok 0 s'
    /\ stdout s' = stdout s ++ ts_text s ++ initiate_head d msg cf
    /\ lines (stdout s') = lines (stdout s).
Proof.
  intros Hlen Hexp Hgate.
  destruct (record_mux_Ok (id msg) (sdo_is_expediated cf)
              (to_u32 (SDO_MUX (sdo_get_index cf) (sdo_get_subindex cf))) s Hlen)
    as (s1 & Hrun1 & Hout1 & Hopt1 & Htime1).
  assert (Hts : ts_text s1 = ts_text s) by (unfold ts_text; rewrite Hopt1, Htime1; reflexivity).
  destruct d; unfold sdo_initiate, initiate_head.
  - unfold dump_sdo_dl_init_req.
    rewrite (bind_Ok _ _ _ _ _ Hrun1).
    rewrite (bind_Ok _ _ _ _ _ (print_ts_Ok s1)).
    rewrite (bind_Ok _ _ _ _ _ (printf_Ok _ _)).
    rewrite Hexp. cbn [negb]. rewrite andb_true_l, Hgate.
    rewrite (bind_Ok _ _ _ tt _ eq_refl).
    eexists. split; [reflexivity|].
    cbn [emit stdout]. rewrite Hout1, Hts.
    split; [rewrite !append_assoc; reflexivity|].
    rewrite !lines_app, lines_ts_text, !lines_fmt_d, lines_fmt_x.
    cbn [lines Ascii.eqb Bool.eqb]. lia.
  - unfold dump_sdo_ul_init_res.
    rewrite (bind_Ok _ _ _ _ _ Hrun1).
    rewrite (bind_Ok _ _ _ _ _ (print_ts_Ok s1)).
    rewrite (bind_Ok _ _ _ _ _ (printf_Ok _ _)).
    rewrite Hexp. cbn [negb]. rewrite andb_true_l, Hgate.
    rewrite (bind_Ok _ _ _ tt _ eq_refl).
    eexists. split; [reflexivity|].
    cbn [emit stdout]. rewrite Hout1, Hts.
    split; [rewrite !append_assoc; reflexivity|].
    rewrite !lines_app, lines_ts_text, !lines_fmt_d, lines_fmt_x.
    cbn [lines Ascii.eqb Bool.eqb]. lia.
Qed.

End Properties.

(** * The theorems on concrete traffic *)

Module Scenarios.

Import CiA301.

(** Node 5 as the classifier reports it for the request and for the
    response identifier, and the broadcast id 0. *)
Definition rsdo5 : canopen_msg := mk_canopen_msg CANOPEN_RSDO 5.
Definition tsdo5 : canopen_msg := mk_canopen_msg CANOPEN_TSDO 5.
Definition tsdo0 : canopen_msg := mk_canopen_msg CANOPEN_TSDO 0.
Definition emcy0 : canopen_msg := mk_canopen_msg CANOPEN_EMCY 0.

(** Download initiate for object 0x1008 (a visible string), segmented, with
    an indicated size of 2. *)
Definition dl_init : can_frame :=
  mk_can_frame 0x605 8 [0x21; 0x08; 0x10; 0x00; 2; 0; 0; 0].

(** Two download segments: seven bytes, then two bytes with the end flag. *)
Definition dl_seg1 : can_frame :=
  mk_can_frame 0x605 8 [0x00; 65; 66; 67; 68; 69; 70; 71].
Definition dl_seg2 : can_frame :=
  mk_can_frame 0x605 3 [0x01; 72; 73; 0; 0; 0; 0; 0].

(** Download initiate for object 0x2000, segmented, no size indicated, sent
    as a remote request. *)
Definition dl_init_unsized : can_frame :=
  mk_can_frame 0x40000605 8 [0x20; 0x00; 0x20; 0x00; 0; 0; 0; 0].

(** A one-byte download segment with the end flag. *)
Definition dl_seg_last : can_frame :=
  mk_can_frame 0x605 2 [0x01; 0xAA; 0; 0; 0; 0; 0; 0].

(** Expedited upload response for the device type (0x1000, subindex 0), from
    identifier 0x580: the response function code with node id 0. *)
Definition ul_device_type : can_frame :=
  mk_can_frame 0x580 8 [0x43; 0x00; 0x10; 0x00; 0x91; 0x01; 0x0F; 0x00].

(** An emergency frame with a full payload. *)
Definition emcy_frame : can_frame :=
  mk_can_frame 0x80 8 [0x00; 0x10; 0x01; 0xAA; 0xBB; 0xCC; 0xCC; 0xCC].

(** Expedited download initiates: seven bytes without the size flag; eight
    bytes with the flag and two unused bytes; two bytes without the flag. *)
Definition exp_unsized : can_frame :=
  mk_can_frame 0x605 7 [0x22; 0x00; 0x60; 0x01; 1; 2; 3; 0].
Definition exp_sized : can_frame :=
  mk_can_frame 0x605 8 [0x2B; 0x00; 0x60; 0x01; 1; 2; 0; 0].
Definition exp_short : can_frame :=
  mk_can_frame 0x605 2 [0x22; 0x00; 0; 0; 0; 0; 0; 0].

(** The seven-byte expedited initiate again, with a data length of 12. *)
Definition exp_long : can_frame :=
  mk_can_frame 0x605 12 [0x22; 0x00; 0x60; 0x01; 1; 2; 3; 4].

(** Heartbeats of node 3. *)
Definition heartbeat3 (state : Z) : can_frame :=
  mk_can_frame 0x703 1 [state; 0; 0; 0; 0; 0; 0; 0].
Definition hb3 : canopen_msg := mk_canopen_msg CANOPEN_HEARTBEAT 3.

(** The state a run leaves, or the state it started from when it traps. *)
Definition state_after {A} (m : M A) (s : dump_state) : dump_state :=
  match m s with
  | Ok _ s' => s'
  | Trap _ => s
  end.

(** Node 5 in the middle of the download: initiate and first segment seen. *)
Definition mid_download : dump_state :=
  state_after (sdo_initiate Download rsdo5 dl_init ;;
               sdo_segments Download rsdo5 [dl_seg1]) started.

(** Only the NMT filter enabled. *)
Definition nmt_only : dump_state := put_options started 8.

Lemma segmented_round_trip_witness :
  exists s1 s2 s3 ns2,
    sdo_initiate Download rsdo5 dl_init started = Ok 0 s1
    /\ sdo_segments Download rsdo5 [dl_seg1] s1 = Ok tt s2
    /\ node_entry s2 5 = Some ns2
    /\ sdo_segment Download rsdo5 dl_seg2 s2 = Ok 0 s3
    /\ accumulator s3 5 = Some [65; 66; 67; 68; 69; 70; 71; 72; 73]
    /\ stdout s3
       = stdout s2 ++ ts_text s2
         ++ segment_chunk_text Download rsdo5 dl_seg2 (current_mux ns2) [72; 73]
         ++ final_text (current_mux ns2) [65; 66; 67; 68; 69; 70; 71; 72; 73]
         ++ rtr_text dl_seg2 ++ NL.
Proof.
  assert (Hentry : node_entry started (id rsdo5)
                   = Some (mk_node_state 0 (vector_init 8) 0)) by reflexivity.
  assert (Hidx : 0 <= SDO_SEGMENT_IDX) by discriminate.
  assert (Hinit : declares_size dl_init) by (repeat split).
  assert (Hall : Forall segment_ok ([dl_seg1] ++ [dl_seg2]))
    by (repeat constructor; discriminate).
  exact (segmented_round_trip Download rsdo5 dl_init [dl_seg1] dl_seg2 started _
           Hentry Hidx Hinit Hall eq_refl).
Defined.

Lemma end_segment_effect_witness :
  (exists s',
     dump_sdo_dl_seg_req rsdo5 dl_seg2 mid_download = Ok 0 s'
     /\ stdout s'
        = stdout mid_download ++ ts_text mid_download
          ++ segment_chunk_text Download rsdo5 dl_seg2 0x100800 [72; 73]
          ++ final_text 0x100800 [65; 66; 67; 68; 69; 70; 71; 72; 73]
          ++ rtr_text dl_seg2 ++ NL
     /\ accumulator s' 5 = Some [65; 66; 67; 68; 69; 70; 71; 72; 73]
     /\ active_multiplexer s' 5 = Some 0)
  /\
  (exists s',
     dump_sdo_ul_seg_res rsdo5 dl_seg2 mid_download = Ok 0 s'
     /\ stdout s'
        = stdout mid_download ++ ts_text mid_download
          ++ segment_chunk_text Upload rsdo5 dl_seg2 0x100800 [72; 73]
          ++ final_text 0x100800 [65; 66; 67; 68; 69; 70; 71; 72; 73]
          ++ rtr_text dl_seg2 ++ NL
     /\ accumulator s' 5 = Some [65; 66; 67; 68; 69; 70; 71; 72; 73]
     /\ active_multiplexer s' 5 = Some 0x100800).
Proof.
  assert (Hentry : node_entry mid_download (id rsdo5)
                   = Some (mk_node_state 0x100800
                             (mk_vector [65; 66; 67; 68; 69; 70; 71] 8) 0))
    by reflexivity.
  assert (Hidx : 0 <= SDO_SEGMENT_IDX) by discriminate.
  assert (Hok : segment_ok dl_seg2) by (repeat split; discriminate).
  exact (end_segment_effect rsdo5 dl_seg2 mid_download _ Hentry Hidx Hok eq_refl).
Defined.

Lemma sized_initiate_clears_accumulator_witness :
  accumulator mid_download 5 = Some [65; 66; 67; 68; 69; 70; 71]
  /\ exists s' ns',
       sdo_initiate Upload tsdo5 dl_init mid_download = Ok 0 s'
       /\ node_entry s' 5 = Some ns'
       /\ accumulator s' 5 = Some []
       /\ vindex (sdo_data ns') = 0
       /\ 2 <= vsize (sdo_data ns')
       /\ active_multiplexer s' 5 = Some 0x100800.
Proof.
  split; [reflexivity|].
  assert (Hentry : node_entry mid_download (id tsdo5)
                   = Some (mk_node_state 0x100800
                             (mk_vector [65; 66; 67; 68; 69; 70; 71] 8) 0))
    by reflexivity.
  assert (Hinit : declares_size dl_init) by (repeat split).
  exact (sized_initiate_clears_accumulator Upload tsdo5 dl_init mid_download _
           Hentry Hinit).
Defined.

(** C2 as stated fails.  Node 5 completes a download of the bytes 1, 2, 3; a
    new download is then initiated without an indicated size.  The initiate
    is not expedited, yet the accumulator still holds the three bytes after
    it, and the one-byte transfer that follows is reconstructed as four
    bytes. *)
Lemma unsized_initiate_keeps_stale_bytes :
  let previous :=
    [(0, dl_init); (1, mk_can_frame 0x605 4 [0x01; 1; 2; 3; 0; 0; 0; 0])] in
  sdo_is_expediated dl_init_unsized = false
  /\ accumulator (state_after (dump_frames previous) started) 5 = Some [1; 2; 3]
  /\ accumulator
       (state_after (dump_frames (previous ++ [(2, dl_init_unsized)])) started) 5
     = Some [1; 2; 3]
  /\ accumulator
       (state_after (dump_frames (previous ++ [(2, dl_init_unsized); (3, dl_seg_last)]))
                    started) 5
     = Some [1; 2; 3; 0xAA].
Proof. vm_compute. repeat split. Qed.

Lemma absent_node_state_dereferenced_witness :
  ~ 0 < id tsdo0 <= 127
  /\ dump_emcy emcy0 emcy_frame started = Trap NullDereference
  /\ dump_sdo_ul_init_res tsdo0 ul_device_type started = Trap NullDereference.
Proof.
  assert (Hid : ~ 0 < 0 <= 127) by lia.
  split; [exact Hid|]. split.
  - exact (proj1 (absent_node_state_dereferenced emcy0 emcy_frame started Hid)
             eq_refl ltac:(discriminate)).
  - exact (proj2 (absent_node_state_dereferenced tsdo0 ul_device_type started Hid)
             eq_refl eq_refl eq_refl).
Defined.

(** The frame of identifier 0x580 reaches the dereference through the
    dispatcher. *)
Example device_type_response_of_node_0_traps :
  canopen_get_object_type ul_device_type = Some tsdo0
  /\ multiplex ul_device_type started = Trap NullDereference.
Proof. vm_compute. split; reflexivity. Qed.

Lemma unsized_initiate_line_unterminated_witness :
  rtr_text dl_init_unsized = " [RTR]"
  /\ exists s',
       sdo_initiate Download rsdo5 dl_init_unsized started = Ok 0 s'
       /\ stdout s' = "RSDO 5 init-download-segment index=2000,subindex=0"
       /\ lines (stdout s') = 0%nat.
Proof.
  split; [reflexivity|].
  assert (Hlen : length (node_state_ started) = 127%nat) by reflexivity.
  exact (unsized_initiate_line_unterminated Download rsdo5 dl_init_unsized started
           Hlen eq_refl eq_refl).
Defined.

(** The next event continues the unterminated line: two events, one line
    terminator. *)
Example unsized_initiate_joins_next_line :
  let s := state_after (dump_frames [(0, dl_init_unsized); (1, dl_seg_last)]) started in
  lines (stdout s) = 1%nat
  /\ stdout s
     = "RSDO 5 init-download-segment index=2000,subindex=0"
       ++ "RSDO 5 download-segment-end size=1,data=aa,final-size=1,final-data=aa"
       ++ NL.
Proof. vm_compute. split; reflexivity. Qed.

Lemma get_expediated_size_decoded_witness :
  get_expediated_size exp_unsized = 3
  /\ get_expediated_size exp_sized = 2
  /\ get_expediated_size exp_short = to_size_t (2 - 4).
Proof.
  assert (Hidx : 0 <= SDO_EXPEDIATED_DATA_IDX <= CAN_MAX_DLC) by (split; discriminate).
  split; [|split].
  - assert (H1 : 0 <= can_dlc exp_unsized < 256) by (split; [discriminate|reflexivity]).
    assert (H2 : 0 <= sdo_get_expediated_size exp_unsized < 2 ^ SIZE_BITS)
      by (split; [discriminate|reflexivity]).
    assert (H3 : SDO_EXPEDIATED_DATA_IDX <= can_dlc exp_unsized) by discriminate.
    exact (proj2 (proj1 (get_expediated_size_decoded exp_unsized H1 Hidx H2) eq_refl) H3).
  - assert (H1 : 0 <= can_dlc exp_sized < 256) by (split; [discriminate|reflexivity]).
    assert (H2 : 0 <= sdo_get_expediated_size exp_sized < 2 ^ SIZE_BITS)
      by (split; [discriminate|reflexivity]).
    exact (proj2 (get_expediated_size_decoded exp_sized H1 Hidx H2) eq_refl eq_refl).
  - assert (H1 : 0 <= can_dlc exp_short < 256) by (split; [discriminate|reflexivity]).
    assert (H2 : 0 <= sdo_get_expediated_size exp_short < 2 ^ SIZE_BITS)
      by (split; [discriminate|reflexivity]).
    exact (proj1 (proj1 (get_expediated_size_decoded exp_short H1 Hidx H2) eq_refl)).
Defined.

Lemma frame_ok_of cf :
  0 <= can_dlc cf < 256 -> length (data cf) = 8%nat ->
  forallb (fun b => (0 <=? b) && (b <? 256)) (data cf) = true ->
  frame_ok cf.
Proof.
  intros Hdlc Hlen Hbytes. repeat split; try apply Hdlc; try exact Hlen.
  apply Forall_forall. intros b Hb.
  rewrite forallb_forall in Hbytes. specialize (Hbytes b).
  rewrite andb_true_iff, Z.leb_le, Z.ltb_lt in Hbytes.
  apply Hbytes. apply list_elem_of_In. exact Hb.
Qed.

Lemma get_expediated_size_within_payload_witness :
  0 <= get_expediated_size exp_sized <= 4
  /\ (4 + get_expediated_size exp_sized <= 8
      /\ frame_ptr exp_sized 4 (get_expediated_size exp_sized) = Some [1; 2])
  /\ (get_expediated_size exp_short = 2 ^ 64 + 2 - 4
      /\ frame_ptr exp_short 4 (get_expediated_size exp_short) = None)
  /\ (get_expediated_size exp_long = 12 - 4
      /\ frame_ptr exp_long 4 (get_expediated_size exp_long) = None).
Proof.
  assert (Hidx : 0 <= SDO_EXPEDIATED_DATA_IDX <= CAN_MAX_DLC) by (split; discriminate).
  assert (Hok1 : frame_ok exp_sized)
    by (apply frame_ok_of; [split; [discriminate|reflexivity]|reflexivity..]).
  assert (Hok2 : frame_ok exp_short)
    by (apply frame_ok_of; [split; [discriminate|reflexivity]|reflexivity..]).
  assert (Hok3 : frame_ok exp_long)
    by (apply frame_ok_of; [split; [discriminate|reflexivity]|reflexivity..]).
  assert (Hlo : SDO_EXPEDIATED_DATA_IDX <= can_dlc exp_sized) by discriminate.
  assert (Hboth : SDO_EXPEDIATED_DATA_IDX <= can_dlc exp_sized <= CAN_MAX_DLC)
    by (split; discriminate).
  destruct (get_expediated_size_within_payload exp_sized Hok1 Hidx)
    as (Hsize & Hread & _).
  destruct (get_expediated_size_within_payload exp_short Hok2 Hidx)
    as (_ & _ & Hwrap & _).
  destruct (get_expediated_size_within_payload exp_long Hok3 Hidx)
    as (_ & _ & _ & Hlong).
  exact (conj (Hsize Hlo)
           (conj (Hread Hboth)
              (conj (Hwrap eq_refl eq_refl) (Hlong eq_refl eq_refl)))).
Defined.

(** C10 as stated fails.  An expedited download initiate without the
    size-indicated flag and with a data length of 12: the data length is at
    least the offset, the decoded size is 8, within the data length minus the
    offset, yet eight bytes from the offset do not lie inside the eight-byte
    payload, and the decoder reads outside it. *)
Lemma long_expedited_slice_leaves_payload :
  sdo_is_expediated exp_long = true
  /\ SDO_EXPEDIATED_DATA_IDX <= can_dlc exp_long
  /\ get_expediated_size exp_long = 8
  /\ get_expediated_size exp_long <= can_dlc exp_long - SDO_EXPEDIATED_DATA_IDX
  /\ Z.of_nat (length (data exp_long))
     < SDO_EXPEDIATED_DATA_IDX + get_expediated_size exp_long
  /\ frame_ptr exp_long SDO_EXPEDIATED_DATA_IDX (get_expediated_size exp_long) = None
  /\ dump_sdo_dl_init_req rsdo5 exp_long started = Trap OutOfBounds.
Proof. vm_compute. repeat split; discriminate. Qed.

Lemma disabled_filter_skips_witness :
  multiplex dl_seg1 nmt_only = Ok 0 nmt_only
  /\ multiplex ul_device_type nmt_only = Ok 0 nmt_only.
Proof.
  split.
  - exact (disabled_filter_skips dl_seg1 rsdo5 nmt_only eq_refl
             ltac:(discriminate) eq_refl).
  - exact (disabled_filter_skips ul_device_type tsdo0 nmt_only eq_refl
             ltac:(discriminate) eq_refl).
Defined.

Lemma resolve_filters_resolution_witness :
  (exists s',
     resolve_filters 2 initial_state = Ok tt s'
     /\ Z.land (options_ s') 0x1ff8 = 0x1ff8
     /\ Z.land (options_ s') (Z.lnot 0x1ff8) = 2)
  /\
  (exists s',
     resolve_filters 0x82 initial_state = Ok tt s'
     /\ Z.land (options_ s') 0x1ff8 = 0x80
     /\ Z.land (options_ s') (Z.lnot 0x1ff8) = 2).
Proof.
  split.
  - destruct (resolve_filters_resolution 2 initial_state eq_refl)
      as (s' & Hrun & Hnone & _ & Hrest & _).
    exists s'. exact (conj Hrun (conj (Hnone eq_refl) Hrest)).
  - destruct (resolve_filters_resolution 0x82 initial_state eq_refl)
      as (s' & Hrun & _ & Hsome & Hrest & _).
    exists s'. exact (conj Hrun (conj (Hsome ltac:(discriminate)) Hrest)).
Defined.

Lemma dump_heartbeat_rendering_witness :
  stdout (state_after (dump_heartbeat hb3 (heartbeat3 0)) started)
  = "HEARTBEAT 3 bootup" ++ NL
  /\ stdout (state_after (dump_heartbeat hb3 (heartbeat3 1)) started)
     = "HEARTBEAT 3 poll" ++ NL
  /\ stdout (state_after (dump_heartbeat hb3 (heartbeat3 5)) started)
     = "HEARTBEAT 3 state=operational" ++ NL
  /\ stdout (state_after (dump_heartbeat hb3 (heartbeat3 9)) started)
     = "HEARTBEAT 3 state=UNKNOWN" ++ NL.
Proof.
  assert (Hon : truthy (Z.land (options_ started) CO_DUMP_FILTER_HEARTBEAT) = true)
    by reflexivity.
  assert (Hso : NMT_STATE_STOPPED <> NMT_STATE_OPERATIONAL) by discriminate.
  assert (Hsp : NMT_STATE_STOPPED <> NMT_STATE_PREOPERATIONAL) by discriminate.
  assert (Hop : NMT_STATE_OPERATIONAL <> NMT_STATE_PREOPERATIONAL) by discriminate.
  pose proof (fun b => dump_heartbeat_rendering hb3 (heartbeat3 b) started Hon eq_refl
                         Hso Hsp Hop) as H.
  unfold state_after.
  destruct (H 0) as (H0 & _). destruct (H 1) as (_ & H1 & _).
  destruct (H 5) as (_ & _ & H5). destruct (H 9) as (_ & _ & H9).
  rewrite (H0 eq_refl), (H1 eq_refl).
  destruct (H5 ltac:(discriminate) ltac:(discriminate)) as (_ & H5' & _).
  destruct (H9 ltac:(discriminate) ltac:(discriminate)) as (_ & _ & _ & H9').
  rewrite (H5' eq_refl).
  rewrite (H9' ltac:(discriminate) ltac:(discriminate) ltac:(discriminate)).
  repeat split.
Defined.

(** The two scenarios of the specification. *)
Example expedited_download_scenario :
  stdout (state_after
            (multiplex (mk_can_frame 0x605 8 [0x23; 0x00; 0x60; 0x01; 1; 2; 3; 4]))
            started)
  = "RSDO 5 init-download-expediated index=6000,subindex=1,size=4,data=01 02 03 04"
    ++ NL.
Proof. vm_compute. reflexivity. Qed.

Example emergency_scenario :
  stdout (state_after (multiplex (mk_can_frame 0x8A 8 (data emcy_frame))) started)
  = "EMCY 10 code=0x1000,register=0x1,manufacturer-error=0xccccccbbaa,dlc=8,text="
    ++ DQ ++ "Unknown" ++ DQ ++ NL.
Proof. vm_compute. reflexivity. Qed.

End Scenarios.

(** * What the decoders leave alone *)

(** A computation keeps a relation between states when every run of it that
    returns relates the state it started from to the state it returns. *)
Definition keeps {A} (R : dump_state -> dump_state -> Prop) (m : M A) : Prop :=
  forall s a s', m s = Ok a s' -> R s s'.

(** The only things a decoder holding the node pointer [p] may change: the
    entry [p] points to, the scratch buffer, and the stream, by appending. *)
Definition touches_only (p : node_ptr) (s s' : dump_state) : Prop :=
  options_ s' = options_ s
  /\ current_time_ s' = current_time_ s
  /\ length (node_state_ s') = length (node_state_ s)
  /\ (forall j, p <> Some j -> node_state_ s' !! j = node_state_ s !! j)
  /\ exists text, stdout s' = stdout s ++ text.

Section Frame.

Context {canopen : canopen_h} {nmt : nmt_h} {heartbeat : heartbeat_h}
        {emcy : emcy_h} {sdo : sdo_h} {dumph : dump_h} {util : util_h}.

(** The node pointer the decoder of a classified message holds: the SDO
    decoders look the node up, the others hold none they write through. *)
Definition touched (msg : canopen_msg) : node_ptr :=
  match object msg with
  | CANOPEN_TSDO | CANOPEN_RSDO => get_node_state (id msg)
  | _ => None
  end.

Lemma touches_only_refl p s : touches_only p s s.
Proof.
  repeat split. exists "". symmetry. apply append_nil_r.
Qed.

Lemma touches_only_trans p s1 s2 s3 :
  touches_only p s1 s2 -> touches_only p s2 s3 -> touches_only p s1 s3.
Proof.
  intros (Ho & Ht & Hl & Hn & t1 & Hs) (Ho' & Ht' & Hl' & Hn' & t2 & Hs').
  repeat split; try congruence.
  - intros j Hj. rewrite (Hn' j Hj). apply Hn. exact Hj.
  - exists (t1 ++ t2). rewrite Hs', Hs. apply append_assoc.
Qed.

Lemma touches_only_emit p s text : touches_only p s (emit s text).
Proof. repeat split. exists text. reflexivity. Qed.

Lemma touches_only_put_buffer p s v : touches_only p s (put_buffer s v).
Proof. repeat split. exists "". symmetry. apply append_nil_r. Qed.

Lemma touches_only_put_node i s ns : touches_only (Some i) s (put_node s i ns).
Proof.
  repeat split.
  - cbn [put_node node_state_]. apply length_insert.
  - intros j Hj. cbn [put_node node_state_]. apply list_lookup_insert_ne. congruence.
  - exists "". symmetry. apply append_nil_r.
Qed.

Lemma keeps_ret {A} p (a : A) : keeps (touches_only p) (ret a).
Proof. intros s a' s' E. inversion E. apply touches_only_refl. Qed.

Lemma keeps_raise {A} p t : keeps (touches_only p) (@raise A t).
Proof. intros s a s' E. discriminate. Qed.

Lemma keeps_bind {A B} p (m : M A) (k : A -> M B) :
  keeps (touches_only p) m -> (forall a, keeps (touches_only p) (k a)) ->
  keeps (touches_only p) (bind m k).
Proof.
  intros Hm Hk s b s' E. unfold bind in E.
  destruct (m s) as [a s1|t] eqn:Em; [|discriminate].
  eapply touches_only_trans; [eapply Hm; exact Em | eapply Hk; exact E].
Qed.

Lemma keeps_gets {A} p (f : dump_state -> A) : keeps (touches_only p) (gets f).
Proof. intros s a s' E. inversion E. apply touches_only_refl. Qed.

Lemma keeps_when p c m : keeps (touches_only p) m -> keeps (touches_only p) (when c m).
Proof. intros Hm. destruct c; [exact Hm | apply keeps_ret]. Qed.

Lemma keeps_printf p text : keeps (touches_only p) (printf text).
Proof. intros s a s' E. inversion E. apply touches_only_emit. Qed.

Lemma keeps_printx p cf text : keeps (touches_only p) (printx cf text).
Proof. apply keeps_printf. Qed.

Lemma keeps_print_ts p : keeps (touches_only p) print_ts.
Proof.
  intros s a s' E. rewrite print_ts_Ok in E. inversion E. apply touches_only_emit.
Qed.

Lemma keeps_read p q size : keeps (touches_only p) (read q size).
Proof.
  intros s a s' E. unfold read in E. destruct (q size); [|discriminate].
  inversion E. apply touches_only_refl.
Qed.

Lemma keeps_load p q : keeps (touches_only p) (load q).
Proof.
  intros s a s' E. unfold load in E. destruct q as [i|]; [|discriminate].
  destruct (node_state_ s !! i); [|discriminate].
  inversion E. apply touches_only_refl.
Qed.

Lemma keeps_store p ns : keeps (touches_only p) (store p ns).
Proof.
  intros s a s' E. unfold store in E. destruct p as [i|]; [|discriminate].
  destruct (node_state_ s !! i); [|discriminate].
  inversion E. apply touches_only_put_node.
Qed.

Lemma keeps_set_string_buffer p v : keeps (touches_only p) (set_string_buffer v).
Proof. intros s a s' E. inversion E. apply touches_only_put_buffer. Qed.

(** One step of the structural proof that a decoder keeps [touches_only]. *)
Ltac keeps_step :=
  match goal with
  | |- keeps _ (bind _ _) => apply keeps_bind; [|intros ?]
  | |- keeps _ (ret _) => apply keeps_ret
  | |- keeps _ (raise _) => apply keeps_raise
  | |- keeps _ (gets _) => apply keeps_gets
  | |- keeps _ (when _ _) => apply keeps_when
  | |- keeps _ (printf _) => apply keeps_printf
  | |- keeps _ (printx _ _) => apply keeps_printx
  | |- keeps _ print_ts => apply keeps_print_ts
  | |- keeps _ (read _ _) => apply keeps_read
  | |- keeps _ (load _) => apply keeps_load
  | |- keeps _ (store _ _) => apply keeps_store
  | |- keeps _ (set_string_buffer _) => apply keeps_set_string_buffer
  | |- keeps _ (if ?c then _ else _) => destruct c
  | |- keeps _ (match ?x with Some _ => _ | None => _ end) => destruct x
  end.

Lemma keeps_get_segment_data p q data size :
  keeps (touches_only p) (get_segment_data q data size).
Proof. unfold get_segment_data, make_string. repeat keeps_step. Qed.

Lemma keeps_sdo_decoders msg cf :
  let p := get_node_state (id msg) in
  keeps (touches_only p) (dump_sdo_dl_init_req msg cf)
  /\ keeps (touches_only p) (dump_sdo_dl_seg_req msg cf)
  /\ keeps (touches_only p) (dump_sdo_ul_init_res msg cf)
  /\ keeps (touches_only p) (dump_sdo_ul_seg_res msg cf).
Proof.
  intros p.
  unfold dump_sdo_dl_init_req, dump_sdo_dl_seg_req, dump_sdo_ul_init_res,
    dump_sdo_ul_seg_res.
  fold p.
  split; [|split; [|split]]; repeat (keeps_step || apply keeps_get_segment_data).
Qed.

Lemma keeps_stateless_decoders p type n msg cf :
  keeps (touches_only p) (dump_nmt cf)
  /\ keeps (touches_only p) (dump_sync cf)
  /\ keeps (touches_only p) (dump_timestamp cf)
  /\ keeps (touches_only p) (dump_emcy msg cf)
  /\ keeps (touches_only p) (dump_pdo type n msg cf)
  /\ keeps (touches_only p) (dump_heartbeat msg cf)
  /\ keeps (touches_only p) (dump_sdo_ul_init_req msg cf)
  /\ keeps (touches_only p) (dump_sdo_ul_seg_req msg cf)
  /\ keeps (touches_only p) (dump_sdo_dl_init_res msg cf)
  /\ keeps (touches_only p) (dump_sdo_dl_seg_res msg cf)
  /\ keeps (touches_only p) (dump_sdo_abort type msg cf).
Proof.
  unfold dump_nmt, dump_sync, dump_timestamp, dump_emcy, dump_pdo, is_pdo_in_filter,
    dump_heartbeat, dump_sdo_ul_init_req, dump_sdo_ul_seg_req, dump_sdo_dl_init_res,
    dump_sdo_dl_seg_res, dump_sdo_abort.
  repeat match goal with |- _ /\ _ => split end; repeat keeps_step.
Qed.

Lemma keeps_sdo_dispatch msg cf :
  keeps (touches_only (get_node_state (id msg))) (dump_rsdo msg cf)
  /\ keeps (touches_only (get_node_state (id msg))) (dump_tsdo msg cf).
Proof.
  destruct (keeps_sdo_decoders msg cf) as (H1 & H2 & H3 & H4).
  pose proof (fun type => keeps_stateless_decoders (get_node_state (id msg)) type 0 msg cf)
    as Hs.
  unfold dump_rsdo, dump_tsdo.
  split; repeat (keeps_step || assumption || apply (Hs 0) || apply Hs).
Qed.

(** Whatever [multiplex] does with a classified frame, it stays within
    [touches_only] of the pointer its decoder holds. *)
Lemma multiplex_touches_only cf msg :
  canopen_get_object_type cf = Some msg ->
  keeps (touches_only (touched msg)) (multiplex cf).
Proof.
  intros Hmsg. unfold multiplex, touched. rewrite Hmsg.
  destruct (keeps_sdo_dispatch msg cf) as [Hr Ht].
  pose proof (fun type n => keeps_stateless_decoders None type n msg cf) as Hs.
  destruct (object msg); try assumption; try apply keeps_raise;
    match goal with
    | |- keeps _ (dump_pdo ?type ?n _ _) => apply (Hs type n)
    | |- _ => apply (Hs 0 0)
    end.
Qed.

Lemma get_node_state_inj a b i :
  get_node_state a = Some i -> get_node_state b = Some i -> a = b.
Proof.
  intros Ha Hb.
  apply get_node_state_range in Ha as [Hra Hia].
  apply get_node_state_range in Hb as [Hrb Hib]. lia.
Qed.

(** X1.  The decoders of one frame never change the resolved options, the
    current time or the number of node entries, and never take back text
    already written: the stream after the frame is the stream before it with
    text appended. *)
Theorem multiplex_keeps_configuration cf s r s' :
  multiplex cf s = Ok r s' ->
  options_ s' = options_ s
  /\ current_time_ s' = current_time_ s
  /\ length (node_state_ s') = length (node_state_ s)
  /\ exists text, stdout s' = stdout s ++ text.
Proof.
  intros Hrun.
  destruct (canopen_get_object_type cf) as [msg|] eqn:Hmsg.
  - destruct (multiplex_touches_only cf msg Hmsg s r s' Hrun)
      as (Ho & Ht & Hl & _ & Hs).
    auto.
  - unfold multiplex in Hrun. rewrite Hmsg in Hrun. inversion Hrun.
    repeat split. exists "". symmetry. apply append_nil_r.
Qed.

(** X2.  A frame of one node never changes the state entry of another node:
    whatever the frame holds, the multiplexer, the accumulator and the cached
    device type of every other node id are as before. *)
Theorem multiplex_other_nodes_untouched cf msg s r s' nodeid :
  canopen_get_object_type cf = Some msg ->
  multiplex cf s = Ok r s' ->
  nodeid <> id msg ->
  node_entry s' nodeid = node_entry s nodeid.
Proof.
  intros Hmsg Hrun Hother.
  destruct (multiplex_touches_only cf msg Hmsg s r s' Hrun) as (_ & _ & _ & Hn & _).
  unfold node_entry. destruct (get_node_state nodeid) as [j|] eqn:Hj; [|reflexivity].
  apply Hn. unfold touched.
  destruct (object msg); try discriminate;
    intros Hp; apply Hother; symmetry; eapply get_node_state_inj; eauto.
Qed.

(** X3.  Only SDO frames write to the node-state table: after a frame of any
    other class (NMT, SYNC, TIME, EMCY, PDO, heartbeat) the table is the one
    before it. *)
Theorem stateless_classes_keep_node_table cf msg s r s' :
  canopen_get_object_type cf = Some msg ->
  object msg <> CANOPEN_TSDO ->
  object msg <> CANOPEN_RSDO ->
  multiplex cf s = Ok r s' ->
  node_state_ s' = node_state_ s.
Proof.
  intros Hmsg Ht Hr Hrun.
  destruct (multiplex_touches_only cf msg Hmsg s r s' Hrun) as (_ & _ & Hl & Hn & _).
  assert (Hnone : touched msg = None).
  { unfold touched. destruct (object msg); try reflexivity; congruence. }
  rewrite Hnone in Hn.
  apply list_eq. intros j. apply Hn. discriminate.
Qed.

End Frame.

(** * Edge behaviour of the decoders *)

Section Edges.

Context {canopen : canopen_h} {nmt : nmt_h} {heartbeat : heartbeat_h}
        {emcy : emcy_h} {sdo : sdo_h} {dumph : dump_h} {util : util_h}.

(** The line [dump_emcy] prints for a non-empty payload when the cached
    device type of the node is [cached]. *)
Definition emcy_line (msg : canopen_msg) (cf : can_frame) (cached : Z) : string :=
  "EMCY " ++ fmt_d (id msg) ++ " code=" ++ fmt_hash_x (emcy_get_code cf)
  ++ ",register=" ++ fmt_hash_x (emcy_get_register cf)
  ++ ",manufacturer-error=" ++ fmt_hash_llx (emcy_get_manufacturer_error cf)
  ++ ",dlc=" ++ fmt_d (can_dlc cf)
  ++ ",text=" ++ DQ
  ++ error_code_to_string (emcy_get_code cf) (Z.land cached 0xffff)
  ++ DQ ++ rtr_text cf ++ NL.

(** The payload slice of an expedited initiate of decoded length [size]. *)
Definition expedited_payload (cf : can_frame) (size : Z) : list Z :=
  take (Z.to_nat size) (drop (Z.to_nat SDO_EXPEDIATED_DATA_IDX) (data cf)).

(** The text of a segment event of a node without a state entry. *)
Definition stateless_segment_text (d : direction) (msg : canopen_msg) (cf : can_frame)
  : string :=
  match d with
  | Download => "RSDO " ++ fmt_d (id msg) ++ " download-segment"
  | Upload => "TSDO " ++ fmt_d (id msg) ++ " upload-segment"
  end ++ (if sdo_is_end_segment cf then "-end" else "")
  ++ " size=" ++ fmt_d (to_size_t (can_dlc cf - SDO_SEGMENT_IDX))
  ++ ",data=" ++ hexdump (segment_payload cf).

Lemma dump_emcy_Ok msg cf s ns :
  truthy (Z.land (options_ s) CO_DUMP_FILTER_EMCY) = true ->
  can_dlc cf <> 0 ->
  node_entry s (id msg) = Some ns ->
  dump_emcy msg cf s
  = Ok 0 (emit (emit s (ts_text s)) (emcy_line msg cf (device_type ns))).
Proof.
  intros Hon Hdlc Hentry.
  destruct (node_entry_inv _ _ _ Hentry) as (i & Hid & Hns).
  unfold dump_emcy.
  rewrite (bind_Ok _ _ _ _ _ (gets_Ok options_ s)), Hon. cbn [negb].
  rewrite (bind_Ok _ _ _ _ _ (print_ts_Ok s)).
  rewrite (proj2 (Z.eqb_neq _ _) Hdlc), Hid.
  rewrite (bind_Ok _ _ _ ns (emit s (ts_text s))) by (apply load_Ok; exact Hns).
  rewrite (bind_Ok _ _ _ _ _ (printx_Ok _ _ _)).
  unfold ret, emcy_line. rewrite !append_assoc. reflexivity.
Qed.

(** X4.  An emergency frame with an empty payload is rendered as the EMPTY marker
    for every node id, with or without a state entry; the node's entry is not
    looked at.  With a payload, the error text is looked up under the low 16
    bits of the node's cached device type. *)
Theorem dump_emcy_rendering msg cf s :
  truthy (Z.land (options_ s) CO_DUMP_FILTER_EMCY) = true ->
  (can_dlc cf = 0 ->
     dump_emcy msg cf s
     = Ok 0 (emit (emit s (ts_text s))
               ("EMCY " ++ fmt_d (id msg) ++ " EMPTY" ++ rtr_text cf ++ NL)))
  /\
  (can_dlc cf <> 0 ->
   forall ns, node_entry s (id msg) = Some ns ->
     dump_emcy msg cf s
     = Ok 0 (emit (emit s (ts_text s)) (emcy_line msg cf (device_type ns)))).
Proof.
  intros Hon. split.
  - intros Hdlc. unfold dump_emcy.
    rewrite (bind_Ok _ _ _ _ _ (gets_Ok options_ s)), Hon. cbn [negb].
    rewrite (bind_Ok _ _ _ _ _ (print_ts_Ok s)).
    rewrite Hdlc. cbn [Z.eqb].
    rewrite (bind_Ok _ _ _ _ _ (printx_Ok _ _ _)).
    unfold ret. rewrite !append_assoc. reflexivity.
  - intros Hdlc ns Hentry. apply dump_emcy_Ok; assumption.
Qed.

Lemma expedited_slice cf :
  length (data cf) = 8%nat ->
  0 <= SDO_EXPEDIATED_DATA_IDX <= can_dlc cf ->
  can_dlc cf <= CAN_MAX_DLC ->
  0 <= get_expediated_size cf <= can_dlc cf - SDO_EXPEDIATED_DATA_IDX
  /\ frame_ptr cf SDO_EXPEDIATED_DATA_IDX (get_expediated_size cf)
     = Some (expedited_payload cf (get_expediated_size cf)).
Proof.
  intros Hlen Hidx Hmax. unfold CAN_MAX_DLC in Hmax.
  assert (Hsize : 0 <= get_expediated_size cf
                  <= can_dlc cf - SDO_EXPEDIATED_DATA_IDX).
  { unfold get_expediated_size.
    rewrite (to_size_t_small (can_dlc cf - _)) by (unfold SIZE_BITS; lia).
    destruct (sdo_is_size_indicated cf); [|lia].
    rewrite MIN_min.
    pose proof (to_size_t_range (sdo_get_expediated_size cf)). lia. }
  split; [exact Hsize|].
  unfold frame_ptr, expedited_payload. apply slice_Some; rewrite ?Hlen; lia.
Qed.

(** X5.  An expedited download initiate that reaches the expedited-data offset and
    is at most eight bytes long is rendered as one line, with the decoded
    size and the hex dump of the payload slice, marker and terminator
    included; nothing but the stream changes, for every node id. *)
Theorem expedited_download_line msg cf s :
  sdo_is_expediated cf = true ->
  length (data cf) = 8%nat ->
  0 <= SDO_EXPEDIATED_DATA_IDX <= can_dlc cf ->
  can_dlc cf <= CAN_MAX_DLC ->
  let size := get_expediated_size cf in
  dump_sdo_dl_init_req msg cf s
  = Ok 0 (emit (emit (emit s (ts_text s)) (initiate_head Download msg cf))
            (",size=" ++ fmt_d size ++ ",data="
             ++ hexdump (expedited_payload cf size) ++ rtr_text cf ++ NL)).
Proof.
  intros Hexp Hlen Hidx Hmax size.
  destruct (expedited_slice cf Hlen Hidx Hmax) as [_ Hslice].
  unfold dump_sdo_dl_init_req, initiate_head. rewrite Hexp.
  rewrite andb_false_r. cbn [negb andb when].
  rewrite (bind_Ok _ _ _ tt s eq_refl).
  rewrite (bind_Ok _ _ _ _ _ (print_ts_Ok s)).
  rewrite (bind_Ok _ _ _ _ _ (printf_Ok _ _)).
  erewrite (bind_Ok _ _ _ tt).
  2:{ rewrite (bind_Ok _ _ _ _ _ (read_Ok _ _ _ _ Hslice)). apply printx_Ok. }
  unfold ret. fold size. rewrite !append_assoc. reflexivity.
Qed.


Lemma is_Some_None_false {A} : bool_decide (is_Some (@None A)) = false.
Proof. apply bool_decide_eq_false. intros [? ?]. discriminate. Qed.

(** X7.  A segment frame of a node without a state entry (an id outside
    1..127), with a data length between the segment data offset and eight,
    is rendered statelessly: its own payload as a hex dump, whatever object is
    being transferred, and no final data even on the end flag; only the
    stream changes.  (A shorter frame faults, see X8.) *)
Theorem absent_node_segment_stateless d msg cf s :
  ~ 0 < id msg <= 127 ->
  0 <= SDO_SEGMENT_IDX ->
  segment_ok cf ->
  sdo_segment d msg cf s
  = Ok 0 (emit (emit (emit s (ts_text s)) (stateless_segment_text d msg cf))
            (rtr_text cf ++ NL)).
Proof.
  intros Hid Hidx Hok. apply get_node_state_None in Hid.
  pose proof (segment_slice cf Hidx Hok) as Hslice.
  assert (Hseg : forall s1,
            get_segment_data None (frame_ptr cf SDO_SEGMENT_IDX)
              (to_size_t (can_dlc cf - SDO_SEGMENT_IDX)) s1
            = Ok (hexdump (segment_payload cf)) s1).
  { intros s1. unfold get_segment_data.
    rewrite (bind_Ok _ _ _ false s1 eq_refl).
    rewrite (bind_Ok _ _ _ _ _ (read_Ok _ _ _ _ Hslice)). reflexivity. }
  destruct d; unfold sdo_segment, stateless_segment_text.
  - unfold dump_sdo_dl_seg_req. rewrite Hid, is_Some_None_false.
    cbn [andb when].
    rewrite (bind_Ok _ _ _ tt s eq_refl).
    rewrite (bind_Ok _ _ _ _ _ (print_ts_Ok s)).
    rewrite (bind_Ok _ _ _ _ _ (Hseg _)).
    rewrite (bind_Ok _ _ _ _ _ (printf_Ok _ _)).
    erewrite (bind_Ok _ _ _ tt) by reflexivity.
    rewrite (bind_Ok _ _ _ _ _ (printx_Ok _ _ _)).
    unfold ret. rewrite !append_assoc. reflexivity.
  - unfold dump_sdo_ul_seg_res. rewrite Hid, is_Some_None_false.
    cbn [andb when].
    rewrite (bind_Ok _ _ _ tt s eq_refl).
    rewrite (bind_Ok _ _ _ _ _ (print_ts_Ok s)).
    rewrite (bind_Ok _ _ _ _ _ (Hseg _)).
    rewrite (bind_Ok _ _ _ _ _ (printf_Ok _ _)).
    erewrite (bind_Ok _ _ _ tt) by reflexivity.
    rewrite (bind_Ok _ _ _ _ _ (printx_Ok _ _ _)).
    unfold ret. rewrite !append_assoc. reflexivity.
Qed.

Lemma bind_Trap {A B} (m : M A) (k : A -> M B) s t :
  m s = Trap t -> bind m k s = Trap t.
Proof. unfold bind. intros ->. reflexivity. Qed.

(** X8.  A segment frame shorter than the segment data offset (an empty frame,
    for one) makes the payload size wrap around, and the decoder of either
    direction reads past the end of the frame's data array. *)
Theorem short_segment_reads_out_of_bounds d msg cf s :
  length (node_state_ s) = 127%nat ->
  length (data cf) = 8%nat ->
  0 <= can_dlc cf < SDO_SEGMENT_IDX ->
  SDO_SEGMENT_IDX <= CAN_MAX_DLC ->
  to_size_t (can_dlc cf - SDO_SEGMENT_IDX) = 2 ^ SIZE_BITS + can_dlc cf - SDO_SEGMENT_IDX
  /\ sdo_segment d msg cf s = Trap OutOfBounds.
Proof.
  intros Htable Hlen Hdlc Hidx. unfold CAN_MAX_DLC in Hidx.
  assert (Hsize : to_size_t (can_dlc cf - SDO_SEGMENT_IDX)
                  = 2 ^ SIZE_BITS + can_dlc cf - SDO_SEGMENT_IDX).
  { rewrite to_size_t_wrap by (unfold SIZE_BITS; lia). lia. }
  split; [exact Hsize|].
  assert (Hslice : frame_ptr cf SDO_SEGMENT_IDX
                     (to_size_t (can_dlc cf - SDO_SEGMENT_IDX)) = None).
  { unfold frame_ptr. apply slice_None. rewrite Hsize, Hlen. unfold SIZE_BITS. lia. }
  assert (Hread : forall s1, read (frame_ptr cf SDO_SEGMENT_IDX)
                    (to_size_t (can_dlc cf - SDO_SEGMENT_IDX)) s1 = Trap OutOfBounds).
  { intros s1. unfold read. rewrite Hslice. reflexivity. }
  destruct (get_node_state (id msg)) as [i|] eqn:Hid.
  - destruct (get_node_state_range _ _ Hid) as [Hrange Hi].
    destruct (lookup_lt_is_Some_2 (node_state_ s) i) as [ns Hns]; [lia|].
    destruct d; unfold sdo_segment, dump_sdo_dl_seg_req, dump_sdo_ul_seg_res;
      rewrite Hid, is_Some_true; cbn [when];
      apply bind_Trap;
      rewrite (bind_Ok _ _ _ _ _ (load_Ok _ _ _ Hns));
      apply bind_Trap; apply Hread.
  - assert (Hseg : forall s1,
              get_segment_data None (frame_ptr cf SDO_SEGMENT_IDX)
                (to_size_t (can_dlc cf - SDO_SEGMENT_IDX)) s1 = Trap OutOfBounds).
    { intros s1. unfold get_segment_data.
      rewrite (bind_Ok _ _ _ false s1 eq_refl). apply bind_Trap. apply Hread. }
    destruct d; unfold sdo_segment, dump_sdo_dl_seg_req, dump_sdo_ul_seg_res;
      rewrite Hid, is_Some_None_false; cbn [andb when];
      rewrite (bind_Ok _ _ _ tt s eq_refl);
      rewrite (bind_Ok _ _ _ _ _ (print_ts_Ok s));
      apply bind_Trap; apply Hseg.
Qed.

Lemma string_of_bytes_app l1 l2 :
  string_of_bytes (l1 ++ l2)%list = string_of_bytes l1 ++ string_of_bytes l2.
Proof. induction l1 as [|b l1 IH]; cbn [string_of_bytes app append]; congruence. Qed.

Lemma c_str_app pre rest :
  Forall (fun b => b mod 256 <> 0) pre -> c_str (pre ++ rest)%list = (pre ++ c_str rest)%list.
Proof.
  induction 1 as [|b pre Hb Hpre IH]; [reflexivity|].
  cbn [app c_str]. rewrite (proj2 (Z.eqb_neq _ _) Hb), IH. reflexivity.
Qed.

(** X9.  How a chunk of a visible-string object is rendered for a node with a
    state entry: between quotes when no byte of it is NUL; cut at its first
    NUL byte, and then without the closing quote, when it has one. *)
Theorem visible_string_rendering i ns p size bytes s :
  node_state_ s !! i = Some ns ->
  sdo_dict_type (current_mux ns) = CANOPEN_VISIBLE_STRING ->
  p size = Some bytes ->
  exists b,
    vdata b = (QUOTE :: bytes ++ [QUOTE; NUL])%list
    /\ (Forall (fun b => b mod 256 <> 0) bytes ->
        get_segment_data (Some i) p size s
        = Ok (DQ ++ string_of_bytes bytes ++ DQ) (put_buffer s b))
    /\ (forall pre z post,
          bytes = (pre ++ z :: post)%list ->
          Forall (fun b => b mod 256 <> 0) pre ->
          z mod 256 = 0 ->
          get_segment_data (Some i) p size s
          = Ok (DQ ++ string_of_bytes pre) (put_buffer s b)).
Proof.
  intros Hns Htype Hp.
  set (b := vector_append (vector_append (vector_assign (string_buffer_ s) [QUOTE]) bytes)
              [QUOTE; NUL]).
  assert (Hrun : get_segment_data (Some i) p size s
                 = Ok (string_of_bytes (c_str (QUOTE :: bytes ++ [QUOTE; NUL])%list))
                      (put_buffer s b)).
  { unfold get_segment_data.
    rewrite (bind_Ok _ _ s (sdo_dict_type (current_mux ns) =? CANOPEN_VISIBLE_STRING) s).
    2:{ rewrite (bind_Ok _ _ _ _ _ (load_Ok _ _ _ Hns)). reflexivity. }
    rewrite Htype, Z.eqb_refl.
    unfold make_string, bind, gets, read, set_string_buffer, modify, ret. rewrite Hp.
    reflexivity. }
  exists b. split; [reflexivity|]. split.
  - intros Hnz. rewrite Hrun. f_equal.
    change (QUOTE :: bytes ++ [QUOTE; NUL])%list
      with ([QUOTE] ++ bytes ++ [QUOTE; NUL])%list.
    rewrite c_str_app by (repeat constructor; discriminate).
    rewrite c_str_app by exact Hnz.
    rewrite !string_of_bytes_app. reflexivity.
  - intros pre z post Hsplit Hpre Hz. rewrite Hrun. f_equal.
    change (QUOTE :: bytes ++ [QUOTE; NUL])%list
      with ([QUOTE] ++ bytes ++ [QUOTE; NUL])%list.
    rewrite c_str_app by (repeat constructor; discriminate).
    rewrite Hsplit, <- app_assoc, c_str_app by exact Hpre.
    cbn [app c_str]. rewrite Hz. cbn [Z.eqb].
    rewrite app_nil_r. reflexivity.
Qed.

(** X10.  A PDO frame whose class is enabled: with a data length of at most eight
    it is rendered as one line holding the length and the hex dump of that
    many payload bytes, and only the stream changes; with a longer data
    length the dump reads past the end of the data array. *)
Theorem dump_pdo_bounds type n msg cf s :
  truthy (Z.land (options_ s) (pdo_filter n)) = true ->
  length (data cf) = 8%nat ->
  0 <= can_dlc cf ->
  (can_dlc cf <= CAN_MAX_DLC ->
     dump_pdo type n msg cf s
     = Ok 0 (emit (emit s (ts_text s))
               (fmt_c type ++ "PDO" ++ fmt_d n ++ " " ++ fmt_d (id msg)
                ++ " length=" ++ fmt_d (can_dlc cf)
                ++ ",data=" ++ hexdump (take (Z.to_nat (can_dlc cf)) (data cf))
                ++ rtr_text cf ++ NL)))
  /\
  (CAN_MAX_DLC < can_dlc cf ->
     dump_pdo type n msg cf s = Trap OutOfBounds).
Proof.
  intros Hon Hlen Hdlc. unfold CAN_MAX_DLC.
  assert (Hhead :
            dump_pdo type n msg cf s
            = (bytes <- read (frame_ptr cf 0) (can_dlc cf) ;;
               printx cf (fmt_c type ++ "PDO" ++ fmt_d n ++ " " ++ fmt_d (id msg)
                          ++ " length=" ++ fmt_d (can_dlc cf)
                          ++ ",data=" ++ hexdump bytes) ;;
               ret 0) (emit s (ts_text s))).
  { unfold dump_pdo, is_pdo_in_filter.
    rewrite (bind_Ok _ _ s (Z.land (options_ s) (pdo_filter n)) s)
      by (rewrite (bind_Ok _ _ _ _ _ (gets_Ok options_ s)); reflexivity).
    rewrite Hon. cbn [negb].
    rewrite (bind_Ok _ _ _ _ _ (print_ts_Ok s)). reflexivity. }
  rewrite Hhead. split.
  - intros Hmax.
    assert (Hslice : frame_ptr cf 0 (can_dlc cf)
                     = Some (take (Z.to_nat (can_dlc cf)) (data cf))).
    { unfold frame_ptr. rewrite slice_Some by (rewrite ?Hlen; lia). reflexivity. }
    rewrite (bind_Ok _ _ _ _ _ (read_Ok _ _ _ _ Hslice)).
    rewrite (bind_Ok _ _ _ _ _ (printx_Ok _ _ _)).
    unfold ret. rewrite !append_assoc. reflexivity.
  - intros Hlong. apply bind_Trap. unfold read, frame_ptr.
    rewrite slice_None by (rewrite Hlen; lia). reflexivity.
Qed.

(** X11.  [resolve_filters] only ever sets bits of [options_]: every bit set
    before the call is set after it.  So when the filters are all enabled
    already (as a first call with no filter bit leaves them), a later call
    cannot narrow the selection, whatever filter bits it is given. *)
Theorem resolve_filters_only_adds options s :
  exists s',
    resolve_filters options s = Ok tt s'
    /\ Z.land (options_ s') (options_ s) = options_ s
    /\ (Z.land (options_ s) CO_DUMP_FILTER_MASK = CO_DUMP_FILTER_MASK ->
        Z.land (options_ s') CO_DUMP_FILTER_MASK = CO_DUMP_FILTER_MASK).
Proof.
  eexists. split; [apply resolve_filters_Ok|].
  cbn [put_options options_].
  set (m := CO_DUMP_FILTER_MASK). set (o := options_ s).
  set (y := if truthy (Z.land options m) then Z.land options m else m).
  split.
  - apply Z.bits_inj'. intros k Hk.
    rewrite !Z.land_spec, !Z.lor_spec.
    destruct (Z.testbit o k); [rewrite ?orb_true_l | rewrite andb_false_r];
      reflexivity.
  - intros Hall. apply Z.bits_inj'. intros k Hk.
    pose proof (f_equal (fun z => Z.testbit z k) Hall) as Hbit. cbv beta in Hbit.
    rewrite Z.land_spec in Hbit.
    rewrite !Z.land_spec, !Z.lor_spec.
    destruct (Z.testbit o k), (Z.testbit m k); cbn [andb orb] in *;
      try reflexivity; try discriminate; rewrite ?andb_false_r; reflexivity.
Qed.

(** X12.  The loop over the frames of a source: a frame the classifier rejects
    costs nothing but its timestamp, and decoding goes on with the next
    frame; a frame classified as an object outside the dispatch list ends
    the run in [abort()], whatever frames follow. *)
Theorem unclassified_frame_skipped t cf rest s :
  (canopen_get_object_type cf = None ->
     dump_frames ((t, cf) :: rest) s = dump_frames rest (put_time s t))
  /\
  (forall msg,
     canopen_get_object_type cf = Some msg ->
     object msg = CANOPEN_UNSPEC ->
     dump_frames ((t, cf) :: rest) s = Trap Aborted).
Proof.
  split.
  - intros Hnone. cbn [dump_frames].
    unfold bind at 1. cbn [modify].
    unfold multiplex. rewrite Hnone. reflexivity.
  - intros msg Hmsg Hobj. cbn [dump_frames].
    unfold bind at 1. cbn [modify].
    apply bind_Trap. unfold multiplex. rewrite Hmsg, Hobj. reflexivity.
Qed.

End Edges.

(** * Frames that cannot fault *)

(** The node-state table has the 127 entries of its declaration. *)
Definition table_ok (s : dump_state) : Prop := length (node_state_ s) = 127%nat.

(** A computation is total on the states with a full table: it returns, and
    the table is still full. *)
Definition total {A} (m : M A) : Prop :=
  forall s, table_ok s -> exists a s', m s = Ok a s' /\ table_ok s'.

Section Safety.

Context {canopen : canopen_h} {nmt : nmt_h} {heartbeat : heartbeat_h}
        {emcy : emcy_h} {sdo : sdo_h} {dumph : dump_h} {util : util_h}.

(** The frames [multiplex] decodes without a fault: eight data bytes and a
    data length of at most eight; for an emergency frame with a payload, a
    node id that has a state entry; for an SDO frame, such a node id and a
    data length that reaches both payload offsets. *)
Definition safe_frame (cf : can_frame) (msg : canopen_msg) : Prop :=
  length (data cf) = 8%nat
  /\ 0 <= can_dlc cf <= CAN_MAX_DLC
  /\ match object msg with
     | CANOPEN_UNSPEC => False
     | CANOPEN_EMCY => can_dlc cf = 0 \/ 0 < id msg <= 127
     | CANOPEN_TSDO | CANOPEN_RSDO =>
         0 < id msg <= 127
         /\ SDO_SEGMENT_IDX <= can_dlc cf
         /\ SDO_EXPEDIATED_DATA_IDX <= can_dlc cf
     | _ => True
     end.

Lemma total_ret {A} (a : A) : total (ret a).
Proof. intros s Hs. exists a, s. auto. Qed.

Lemma total_bind {A B} (m : M A) (k : A -> M B) :
  total m -> (forall a, total (k a)) -> total (bind m k).
Proof.
  intros Hm Hk s Hs. destruct (Hm s Hs) as (a & s1 & Em & Hs1).
  destruct (Hk a s1 Hs1) as (b & s2 & Ek & Hs2).
  exists b, s2. split; [|exact Hs2]. rewrite (bind_Ok _ _ _ _ _ Em). exact Ek.
Qed.

Lemma total_gets {A} (f : dump_state -> A) : total (gets f).
Proof. intros s Hs. exists (f s), s. auto. Qed.

Lemma total_when c m : total m -> total (when c m).
Proof. intros Hm. destruct c; [exact Hm | apply total_ret]. Qed.

Lemma total_printf text : total (printf text).
Proof. intros s Hs. exists tt, (emit s text). auto. Qed.

Lemma total_printx cf text : total (printx cf text).
Proof. apply total_printf. Qed.

Lemma total_print_ts : total print_ts.
Proof. intros s Hs. exists tt, (emit s (ts_text s)). split; [apply print_ts_Ok|exact Hs]. Qed.

Lemma total_set_string_buffer v : total (set_string_buffer v).
Proof. intros s Hs. exists tt, (put_buffer s v). auto. Qed.

Lemma total_read p size bytes : p size = Some bytes -> total (read p size).
Proof. intros Hp s Hs. exists bytes, s. split; [apply read_Ok; exact Hp|exact Hs]. Qed.

Lemma total_load i : (i < 127)%nat -> total (load (Some i)).
Proof.
  intros Hi s Hs.
  destruct (lookup_lt_is_Some_2 (node_state_ s) i) as [ns Hns];
    [unfold table_ok in Hs; lia|].
  exists ns, s. split; [apply load_Ok; exact Hns|exact Hs].
Qed.

Lemma total_store i ns : (i < 127)%nat -> total (store (Some i) ns).
Proof.
  intros Hi s Hs.
  destruct (lookup_lt_is_Some_2 (node_state_ s) i) as [ns0 Hns];
    [unfold table_ok in Hs; lia|].
  exists tt, (put_node s i ns). split; [eapply store_Ok; exact Hns|].
  unfold table_ok, put_node. cbn [node_state_]. rewrite length_insert. exact Hs.
Qed.

(** A node pointer that is NULL or points into the table. *)
Definition valid_ptr (p : node_ptr) : Prop :=
  match p with
  | Some i => (i < 127)%nat
  | None => True
  end.

Lemma valid_get_node_state nodeid : valid_ptr (get_node_state nodeid).
Proof.
  destruct (get_node_state nodeid) as [i|] eqn:Hid; [|exact I].
  apply get_node_state_range in Hid. cbn [valid_ptr]. lia.
Qed.

Lemma get_node_state_Some nodeid :
  0 < nodeid <= 127 -> exists i, get_node_state nodeid = Some i /\ (i < 127)%nat.
Proof.
  intros H. exists (Z.to_nat (nodeid - 1)). split; [|lia].
  unfold get_node_state.
  destruct (Z.ltb_spec 0 nodeid), (Z.leb_spec nodeid 127); cbn [andb];
    try reflexivity; lia.
Qed.

Lemma total_get_segment_data p data size bytes :
  valid_ptr p -> data size = Some bytes -> total (get_segment_data p data size).
Proof.
  intros Hp Hdata. unfold get_segment_data, make_string.
  apply total_bind.
  - destruct p as [i|]; [|apply total_ret].
    apply total_bind; [apply total_load; exact Hp | intros; apply total_ret].
  - intros [|].
    + apply total_bind; [apply total_gets|intros b].
      apply total_bind; [eapply total_read; exact Hdata|intros ?].
      apply total_bind; [apply total_set_string_buffer | intros; apply total_ret].
    + apply total_bind; [eapply total_read; exact Hdata | intros; apply total_ret].
Qed.

(** One step of the structural proof that a decoder is total. *)
Ltac total_step :=
  match goal with
  | |- total (bind _ _) => apply total_bind; [|intros ?]
  | |- total (ret _) => apply total_ret
  | |- total (gets _) => apply total_gets
  | |- total (when _ _) => apply total_when
  | |- total (printf _) => apply total_printf
  | |- total (printx _ _) => apply total_printx
  | |- total print_ts => apply total_print_ts
  | |- total (set_string_buffer _) => apply total_set_string_buffer
  | |- total (load (Some _)) => apply total_load; assumption
  | |- total (store (Some _) _) => apply total_store; assumption
  | |- total (read _ _) => eapply total_read; eassumption
  | |- total (get_segment_data _ (vector_ptr _) _) =>
      eapply total_get_segment_data; [assumption | apply slice_all]
  | |- total (get_segment_data _ _ _) =>
      eapply total_get_segment_data; [assumption | eassumption]
  | |- total (if ?c then _ else _) => destruct c
  end.

Lemma total_stateless_decoders type msg cf :
  total (dump_nmt cf)
  /\ total (dump_sync cf)
  /\ total (dump_timestamp cf)
  /\ total (dump_heartbeat msg cf)
  /\ total (dump_sdo_ul_init_req msg cf)
  /\ total (dump_sdo_ul_seg_req msg cf)
  /\ total (dump_sdo_dl_init_res msg cf)
  /\ total (dump_sdo_dl_seg_res msg cf)
  /\ total (dump_sdo_abort type msg cf).
Proof.
  unfold dump_nmt, dump_sync, dump_timestamp, dump_heartbeat, dump_sdo_ul_init_req,
    dump_sdo_ul_seg_req, dump_sdo_dl_init_res, dump_sdo_dl_seg_res, dump_sdo_abort.
  repeat match goal with |- _ /\ _ => split end; repeat total_step.
Qed.

Lemma total_dump_pdo type n msg cf :
  length (data cf) = 8%nat -> 0 <= can_dlc cf <= CAN_MAX_DLC ->
  total (dump_pdo type n msg cf).
Proof.
  intros Hlen Hdlc. unfold CAN_MAX_DLC in Hdlc.
  assert (Hslice : frame_ptr cf 0 (can_dlc cf)
                   = Some (take (Z.to_nat (can_dlc cf)) (data cf))).
  { unfold frame_ptr. apply slice_Some; rewrite ?Hlen; lia. }
  unfold dump_pdo, is_pdo_in_filter. repeat total_step.
Qed.

Lemma total_dump_emcy msg cf :
  can_dlc cf = 0 \/ 0 < id msg <= 127 -> total (dump_emcy msg cf).
Proof.
  intros Hsafe. unfold dump_emcy.
  apply total_bind; [apply total_gets|intros o].
  destruct (negb _); [apply total_ret|].
  apply total_bind; [apply total_print_ts|intros _].
  destruct (Z.eqb_spec (can_dlc cf) 0) as [Hzero|Hnz]; [repeat total_step|].
  destruct Hsafe as [Hzero|Hid]; [contradiction|].
  destruct (get_node_state_Some _ Hid) as (i & Hp & Hi). rewrite Hp.
  repeat total_step.
Qed.

Lemma total_sdo_decoders msg cf :
  0 <= SDO_SEGMENT_IDX -> 0 <= SDO_EXPEDIATED_DATA_IDX ->
  length (data cf) = 8%nat -> can_dlc cf <= CAN_MAX_DLC ->
  0 < id msg <= 127 ->
  SDO_SEGMENT_IDX <= can_dlc cf -> SDO_EXPEDIATED_DATA_IDX <= can_dlc cf ->
  total (dump_sdo_dl_init_req msg cf)
  /\ total (dump_sdo_dl_seg_req msg cf)
  /\ total (dump_sdo_ul_init_res msg cf)
  /\ total (dump_sdo_ul_seg_res msg cf).
Proof.
  intros Hseg0 Hexp0 Hlen Hmax Hid Hseg Hexp.
  destruct (get_node_state_Some _ Hid) as (i & Hp & Hi).
  assert (Hvalid : valid_ptr (Some i)) by exact Hi.
  pose proof (segment_slice cf Hseg0 (conj (conj Hseg Hmax) Hlen)) as Hslice_seg.
  destruct (expedited_slice cf Hlen (conj Hexp0 Hexp) Hmax) as [Hsize Hslice_exp].
  assert (Hslice_dev :
            frame_ptr cf SDO_EXPEDIATED_DATA_IDX (MIN 4 (get_expediated_size cf))
            = Some (expedited_payload cf (MIN 4 (get_expediated_size cf)))).
  { unfold frame_ptr, expedited_payload. unfold CAN_MAX_DLC in Hmax.
    rewrite MIN_min. apply slice_Some; rewrite ?Hlen; lia. }
  unfold dump_sdo_dl_init_req, dump_sdo_dl_seg_req, dump_sdo_ul_init_res,
    dump_sdo_ul_seg_res.
  rewrite Hp.
  split; [|split; [|split]]; repeat total_step.
Qed.

Lemma safe_frame_total cf msg :
  0 <= SDO_SEGMENT_IDX ->
  0 <= SDO_EXPEDIATED_DATA_IDX ->
  canopen_get_object_type cf = Some msg ->
  safe_frame cf msg ->
  total (multiplex cf).
Proof.
  intros Hseg0 Hexp0 Hmsg (Hlen & Hdlc & Hclass).
  pose proof (fun type => total_stateless_decoders type msg cf) as Hs.
  assert (Hpdo : forall type n, total (dump_pdo type n msg cf))
    by (intros; apply total_dump_pdo; assumption).
  unfold multiplex. rewrite Hmsg.
  destruct (object msg); try contradiction; try apply Hpdo; try apply (Hs 0).
  - apply total_dump_emcy. exact Hclass.
  - destruct Hclass as (Hid & Hseg & Hexp).
    destruct (total_sdo_decoders msg cf Hseg0 Hexp0 Hlen (proj2 Hdlc) Hid Hseg Hexp)
      as (_ & _ & H3 & H4).
    unfold dump_tsdo. repeat (total_step || assumption || apply Hs).
  - destruct Hclass as (Hid & Hseg & Hexp).
    destruct (total_sdo_decoders msg cf Hseg0 Hexp0 Hlen (proj2 Hdlc) Hid Hseg Hexp)
      as (H1 & H2 & _ & _).
    unfold dump_rsdo. repeat (total_step || assumption || apply Hs).
Qed.

(** X13.  A safe frame never makes the dumper fault.  On a table of 127 entries,
    [multiplex] returns for every classified frame that is [safe_frame],
    whatever its payload bytes, its flags and the state of earlier transfers,
    and the table still has its 127 entries afterwards. *)
Theorem safe_frame_never_traps cf msg s :
  0 <= SDO_SEGMENT_IDX ->
  0 <= SDO_EXPEDIATED_DATA_IDX ->
  table_ok s ->
  canopen_get_object_type cf = Some msg ->
  safe_frame cf msg ->
  exists r s', multiplex cf s = Ok r s' /\ table_ok s'.
Proof.
  intros Hseg0 Hexp0 Htable Hmsg Hsafe.
  exact (safe_frame_total cf msg Hseg0 Hexp0 Hmsg Hsafe s Htable).
Qed.

(** X14.  A run over a trace of safe frames decodes every frame: [dump_frames]
    returns, with the table intact. *)
Theorem safe_trace_is_decoded frames s :
  0 <= SDO_SEGMENT_IDX ->
  0 <= SDO_EXPEDIATED_DATA_IDX ->
  table_ok s ->
  Forall (fun tf => exists msg,
            canopen_get_object_type (snd tf) = Some msg /\ safe_frame (snd tf) msg)
         frames ->
  exists s', dump_frames frames s = Ok tt s' /\ table_ok s'.
Proof.
  intros Hseg0 Hexp0 Htable Hall. revert s Htable.
  induction Hall as [|[t cf] rest (msg & Hmsg & Hsafe) Hrest IH]; intros s Htable.
  - exists s. split; [reflexivity|exact Htable].
  - cbn [snd] in *.
    destruct (safe_frame_total cf msg Hseg0 Hexp0 Hmsg Hsafe (put_time s t) Htable)
      as (r & s1 & Hrun & Htable1).
    destruct (IH s1 Htable1) as (s' & Hrun' & Htable').
    exists s'. split; [|exact Htable'].
    cbn [dump_frames]. unfold bind at 1. cbn [modify].
    rewrite (bind_Ok _ _ _ _ _ Hrun). exact Hrun'.
Qed.

End Safety.

(** * The further properties on concrete traffic *)

Module Coverage.

Import CiA301.
Import Scenarios.

Definition rsdo0 : canopen_msg := mk_canopen_msg CANOPEN_RSDO 0.
Definition emcy10 : canopen_msg := mk_canopen_msg CANOPEN_EMCY 10.
Definition tpdo5 : canopen_msg := mk_canopen_msg CANOPEN_TPDO1 5.

(** An emergency frame without payload, and one of node 10. *)
Definition emcy_empty : can_frame := mk_can_frame 0x80 0 [0; 0; 0; 0; 0; 0; 0; 0].
Definition emcy_node10 : can_frame := mk_can_frame 0x8A 8 (data emcy_frame).


(** An SDO request of node 5 with no data at all. *)
Definition sdo_empty : can_frame := mk_can_frame 0x605 0 [0; 0; 0; 0; 0; 0; 0; 0].

(** A download segment whose payload holds a NUL byte. *)
Definition dl_seg_nul : can_frame :=
  mk_can_frame 0x605 4 [0x00; 72; 0; 73; 0; 0; 0; 0].

(** The first transmit PDO of node 5, two bytes long, and the same frame
    with a data length of nine. *)
Definition pdo_frame : can_frame := mk_can_frame 0x185 2 [1; 2; 0; 0; 0; 0; 0; 0].
Definition pdo_long : can_frame := mk_can_frame 0x185 9 [1; 2; 0; 0; 0; 0; 0; 0].

(** A complete download of node 5 as a trace. *)
Definition download_trace : list (Z * can_frame) :=
  [(0, dl_init); (1, dl_seg1); (2, dl_seg2)].

Definition after_init : dump_state := state_after (multiplex dl_init) started.

Ltac solve_safe :=
  repeat match goal with
         | |- _ /\ _ => split
         | |- _ <= _ => discriminate
         | |- _ < _ => reflexivity
         | |- _ = _ => reflexivity
         end.

Lemma multiplex_keeps_configuration_witness :
  options_ after_init = options_ started
  /\ current_time_ after_init = current_time_ started
  /\ length (node_state_ after_init) = length (node_state_ started)
  /\ exists text, stdout after_init = stdout started ++ text.
Proof.
  assert (Hrun : multiplex dl_init started = Ok 0 after_init) by reflexivity.
  exact (multiplex_keeps_configuration dl_init started 0 after_init Hrun).
Defined.

Lemma multiplex_other_nodes_untouched_witness :
  active_multiplexer after_init 5 = Some 0x100800
  /\ node_entry after_init 9 = node_entry started 9.
Proof.
  split; [reflexivity|].
  assert (Hmsg : canopen_get_object_type dl_init = Some rsdo5) by reflexivity.
  assert (Hrun : multiplex dl_init started = Ok 0 after_init) by reflexivity.
  assert (Hother : 9 <> id rsdo5) by discriminate.
  exact (multiplex_other_nodes_untouched dl_init rsdo5 started 0 after_init 9
           Hmsg Hrun Hother).
Defined.

Lemma stateless_classes_keep_node_table_witness :
  node_state_ (state_after (multiplex (heartbeat3 5)) mid_download)
  = node_state_ mid_download.
Proof.
  assert (Hmsg : canopen_get_object_type (heartbeat3 5) = Some hb3) by reflexivity.
  assert (Ht : object hb3 <> CANOPEN_TSDO) by discriminate.
  assert (Hr : object hb3 <> CANOPEN_RSDO) by discriminate.
  assert (Hrun : multiplex (heartbeat3 5) mid_download
                 = Ok 0 (state_after (multiplex (heartbeat3 5)) mid_download))
    by reflexivity.
  exact (stateless_classes_keep_node_table (heartbeat3 5) hb3 mid_download 0 _
           Hmsg Ht Hr Hrun).
Defined.

Lemma dump_emcy_rendering_witness :
  dump_emcy emcy0 emcy_empty started
  = Ok 0 (emit (emit started "") ("EMCY 0 EMPTY" ++ NL))
  /\ dump_emcy emcy10 emcy_node10 started
     = Ok 0 (emit (emit started "") (emcy_line emcy10 emcy_node10 0)).
Proof.
  assert (Hon : truthy (Z.land (options_ started) CO_DUMP_FILTER_EMCY) = true)
    by reflexivity.
  assert (Hnz : can_dlc emcy_node10 <> 0) by discriminate.
  split.
  - exact (proj1 (dump_emcy_rendering emcy0 emcy_empty started Hon) eq_refl).
  - exact (proj2 (dump_emcy_rendering emcy10 emcy_node10 started Hon) Hnz
             (mk_node_state 0 (vector_init 8) 0) eq_refl).
Defined.

Lemma expedited_download_line_witness :
  dump_sdo_dl_init_req rsdo0 exp_sized started
  = Ok 0 (emit (emit (emit started "")
                  "RSDO 0 init-download-expediated index=6000,subindex=1")
            (",size=2,data=01 02" ++ NL)).
Proof.
  assert (Hlen : length (data exp_sized) = 8%nat) by reflexivity.
  assert (Hidx : 0 <= SDO_EXPEDIATED_DATA_IDX <= can_dlc exp_sized) by solve_safe.
  assert (Hmax : can_dlc exp_sized <= CAN_MAX_DLC) by discriminate.
  exact (expedited_download_line rsdo0 exp_sized started eq_refl Hlen Hidx Hmax).
Defined.


Lemma absent_node_segment_stateless_witness :
  sdo_is_end_segment dl_seg2 = true
  /\ sdo_segment Download rsdo0 dl_seg2 mid_download
     = Ok 0 (emit (emit (emit mid_download "")
                     "RSDO 0 download-segment-end size=2,data=48 49")
               NL).
Proof.
  split; [reflexivity|].
  assert (Hid : ~ 0 < id rsdo0 <= 127) by (intros [H _]; discriminate H).
  assert (Hidx : 0 <= SDO_SEGMENT_IDX) by discriminate.
  assert (Hok : segment_ok dl_seg2) by (repeat split; discriminate).
  exact (absent_node_segment_stateless Download rsdo0 dl_seg2 mid_download
           Hid Hidx Hok).
Defined.

Lemma short_segment_reads_out_of_bounds_witness :
  to_size_t (can_dlc sdo_empty - 1) = 2 ^ 64 - 1
  /\ sdo_segment Download rsdo5 sdo_empty started = Trap OutOfBounds.
Proof.
  assert (Htable : length (node_state_ started) = 127%nat) by reflexivity.
  assert (Hlen : length (data sdo_empty) = 8%nat) by reflexivity.
  assert (Hdlc : 0 <= can_dlc sdo_empty < SDO_SEGMENT_IDX) by solve_safe.
  assert (Hidx : SDO_SEGMENT_IDX <= CAN_MAX_DLC) by discriminate.
  exact (short_segment_reads_out_of_bounds Download rsdo5 sdo_empty started
           Htable Hlen Hdlc Hidx).
Defined.

Lemma visible_string_rendering_witness :
  exists b,
    get_segment_data (Some 4%nat) (frame_ptr dl_seg1 1) 7 mid_download
    = Ok (DQ ++ "ABCDEFG" ++ DQ) (put_buffer mid_download b)
    /\ exists b',
         get_segment_data (Some 4%nat) (frame_ptr dl_seg_nul 1) 3 mid_download
         = Ok (DQ ++ "H") (put_buffer mid_download b').
Proof.
  assert (Hns : node_state_ mid_download !! 4%nat
                = Some (mk_node_state 0x100800
                          (mk_vector [65; 66; 67; 68; 69; 70; 71] 8) 0))
    by reflexivity.
  assert (Hp1 : frame_ptr dl_seg1 1 7 = Some [65; 66; 67; 68; 69; 70; 71]) by reflexivity.
  assert (Hp2 : frame_ptr dl_seg_nul 1 3 = Some [72; 0; 73]) by reflexivity.
  assert (Hnz : Forall (fun b => b mod 256 <> 0) [65; 66; 67; 68; 69; 70; 71])
    by (repeat constructor; discriminate).
  assert (Hpre : Forall (fun b => b mod 256 <> 0) [72])
    by (repeat constructor; discriminate).
  assert (Htype : sdo_dict_type
                    (current_mux (mk_node_state 0x100800
                                    (mk_vector [65; 66; 67; 68; 69; 70; 71] 8) 0))
                  = CANOPEN_VISIBLE_STRING) by reflexivity.
  destruct (visible_string_rendering 4 _ (frame_ptr dl_seg1 1) 7 _ mid_download
              Hns Htype Hp1) as (b & _ & Hall & _).
  destruct (visible_string_rendering 4 _ (frame_ptr dl_seg_nul 1) 3 _ mid_download
              Hns Htype Hp2) as (b' & _ & _ & Hcut).
  exists b. split; [exact (Hall Hnz)|].
  exists b'. exact (Hcut [72] 0 [73] eq_refl Hpre eq_refl).
Defined.

Lemma dump_pdo_bounds_witness :
  dump_pdo 84 1 tpdo5 pdo_frame started
  = Ok 0 (emit (emit started "") ("TPDO1 5 length=2,data=01 02" ++ NL))
  /\ dump_pdo 84 1 tpdo5 pdo_long started = Trap OutOfBounds.
Proof.
  assert (Hon : truthy (Z.land (options_ started) (pdo_filter 1)) = true) by reflexivity.
  split.
  - assert (Hlen : length (data pdo_frame) = 8%nat) by reflexivity.
    assert (Hdlc : 0 <= can_dlc pdo_frame) by discriminate.
    assert (Hmax : can_dlc pdo_frame <= CAN_MAX_DLC) by discriminate.
    exact (proj1 (dump_pdo_bounds 84 1 tpdo5 pdo_frame started Hon Hlen Hdlc) Hmax).
  - assert (Hlen : length (data pdo_long) = 8%nat) by reflexivity.
    assert (Hdlc : 0 <= can_dlc pdo_long) by discriminate.
    assert (Hlong : CAN_MAX_DLC < can_dlc pdo_long) by reflexivity.
    exact (proj2 (dump_pdo_bounds 84 1 tpdo5 pdo_long started Hon Hlen Hdlc) Hlong).
Defined.

Lemma resolve_filters_only_adds_witness :
  exists s',
    resolve_filters 0x80 started = Ok tt s'
    /\ Z.land (options_ s') 0x1ff8 = 0x1ff8.
Proof.
  destruct (resolve_filters_only_adds 0x80 started) as (s' & Hrun & _ & Hall).
  exists s'. exact (conj Hrun (Hall eq_refl)).
Defined.

Lemma unclassified_frame_skipped_witness :
  canopen_get_object_type (mk_can_frame 0x685 8 (data dl_init)) = None
  /\ dump_frames ((7, mk_can_frame 0x685 8 (data dl_init)) :: download_trace) started
     = dump_frames download_trace (put_time started 7).
Proof.
  split; [reflexivity|].
  exact (proj1 (unclassified_frame_skipped 7 (mk_can_frame 0x685 8 (data dl_init))
                  download_trace started) eq_refl).
Defined.

Lemma safe_rsdo5 cf :
  length (data cf) = 8%nat -> 4 <= can_dlc cf <= 8 -> safe_frame cf rsdo5.
Proof.
  intros Hlen [Hlo Hhi]. unfold safe_frame, CAN_MAX_DLC. cbn.
  repeat split; try exact Hlen; try exact Hhi; lia.
Qed.

Lemma safe_frame_never_traps_witness :
  exists r s', multiplex dl_seg1 mid_download = Ok r s' /\ table_ok s'.
Proof.
  assert (Hseg : 0 <= SDO_SEGMENT_IDX) by discriminate.
  assert (Hexp : 0 <= SDO_EXPEDIATED_DATA_IDX) by discriminate.
  assert (Htable : table_ok mid_download) by reflexivity.
  assert (Hmsg : canopen_get_object_type dl_seg1 = Some rsdo5) by reflexivity.
  assert (Hsafe : safe_frame dl_seg1 rsdo5)
    by (apply safe_rsdo5; [reflexivity | split; discriminate]).
  exact (safe_frame_never_traps dl_seg1 rsdo5 mid_download Hseg Hexp Htable Hmsg Hsafe).
Defined.

(** A trace of full-length frames of node 5. *)
Definition full_trace : list (Z * can_frame) :=
  [(0, dl_init); (1, dl_seg1); (2, dl_init_unsized); (3, exp_sized)].

Lemma full_trace_safe :
  Forall (fun tf => exists msg,
            canopen_get_object_type (snd tf) = Some msg /\ safe_frame (snd tf) msg)
         full_trace.
Proof.
  repeat constructor; exists rsdo5; (split; [reflexivity|]);
    (apply safe_rsdo5; [reflexivity | split; discriminate]).
Qed.

Lemma safe_trace_is_decoded_witness :
  exists s', dump_frames full_trace started = Ok tt s' /\ table_ok s'.
Proof.
  assert (Hseg : 0 <= SDO_SEGMENT_IDX) by discriminate.
  assert (Hexp : 0 <= SDO_EXPEDIATED_DATA_IDX) by discriminate.
  assert (Htable : table_ok started) by reflexivity.
  exact (safe_trace_is_decoded full_trace started Hseg Hexp Htable full_trace_safe).
Defined.

End Coverage.
